(** * consul: registration / health-check facade over a discovery backend

    A shallow embedding of the Go package [consul] (the [Broker] adapter of
    consul.go and the [wrapper] facade next to it), and the properties of
    its lifecycle operations.

    Conventions of the embedding:
    - a Go [string] is a [string] of bytes, a Go [int] is a [Z];
    - a Go [error] value is [error]: [noError] is [nil], [anError t] is a
      non-nil error whose [Error()] text is [t];
    - a pointer-receiver method is a function in the monad [M], which
      threads the receiver's state and may panic (a call through a nil
      interface value);
    - an interface is a type class, its implementations are instances. *)

From Stdlib Require Import String Ascii List ZArith Lia Bool.
Import ListNotations.
Local Open Scope string_scope.
Local Open Scope Z_scope.

(** ** Go error values *)

Inductive error : Type :=
| noError
| anError (text : string).

Definition isNil (e : error) : bool :=
  match e with noError => true | anError _ => false end.

(** ** The parts of the Go standard library the package calls *)

Module strings.

(** [strings.HasPrefix]. *)
Fixpoint HasPrefix (s prefix : string) {struct prefix} : bool :=
  match prefix with
  | EmptyString => true
  | String p prefix' =>
      match s with
      | EmptyString => false
      | String c s' => Ascii.eqb c p && HasPrefix s' prefix'
      end
  end.

(** [strings.Index]: the byte offset of the first occurrence of [substr]
    in [s], or -1. *)
Fixpoint Index (s substr : string) : Z :=
  if HasPrefix s substr then 0
  else match s with
       | EmptyString => -1
       | String _ s' =>
           let i := Index s' substr in
           if i <? 0 then -1 else i + 1
       end.

(** [strings.Contains(s, substr)] is [Index(s, substr) >= 0]. *)
Definition Contains (s substr : string) : bool := 0 <=? Index s substr.

(** [strings.Split(s, sep)] at a separator of one byte, the only way the
    package calls it: the substrings between the occurrences of [sep];
    a string without [sep] (the empty one too) gives the one-element
    slice holding it. *)
Fixpoint Split (s : string) (sep : ascii) : list string :=
  match s with
  | EmptyString => [EmptyString]
  | String c s' =>
      if Ascii.eqb c sep then EmptyString :: Split s' sep
      else match Split s' sep with
           | seg :: segs => String c seg :: segs
           | [] => [String c EmptyString]
           end
  end.

End strings.

Module strconv.

Definition maxUint64 : Z := 18446744073709551615.
Definition maxInt64 : Z := 9223372036854775807.
Definition minInt64 : Z := -9223372036854775808.

Inductive numErr : Type := ErrSyntax | ErrRange.

Definition numErrText (e : numErr) : string :=
  match e with
  | ErrSyntax => "invalid syntax"
  | ErrRange => "value out of range"
  end.

Definition isDigit (c : ascii) : bool :=
  ((48 <=? nat_of_ascii c) && (nat_of_ascii c <=? 57))%nat.

Definition digitVal (c : ascii) : Z := Z.of_nat (nat_of_ascii c) - 48.

(** The digit loop of [ParseUint] at base 10 and 64 bits: a byte that is
    not a digit is a syntax error; the range error is raised as soon as
    the accumulator would leave uint64, before the rest is looked at. *)
Fixpoint parseDigits (s : string) (n : Z) : Z * option numErr :=
  match s with
  | EmptyString => (n, None)
  | String c s' =>
      if negb (isDigit c) then (0, Some ErrSyntax)
      else if maxUint64 / 10 + 1 <=? n then (maxUint64, Some ErrRange)
      else let n1 := n * 10 + digitVal c in
           if maxUint64 <? n1 then (maxUint64, Some ErrRange)
           else parseDigits s' n1
  end.

Definition ParseUint (s : string) : Z * option numErr :=
  match s with
  | EmptyString => (0, Some ErrSyntax)
  | _ => parseDigits s 0
  end.

(** [ParseInt(s, 10, 0)] on a 64-bit platform, the error kept as its kind. *)
Definition ParseInt (s : string) : Z * option numErr :=
  match s with
  | EmptyString => (0, Some ErrSyntax)
  | String c rest =>
      let neg := Ascii.eqb c "-" in
      let body := if Ascii.eqb c "+" || neg then rest else s in
      match ParseUint body with
      | (_, Some ErrSyntax) => (0, Some ErrSyntax)
      | (un, _) =>
          let cutoff := maxInt64 + 1 in
          if negb neg && (cutoff <=? un) then (maxInt64, Some ErrRange)
          else if neg && (cutoff <? un) then (minInt64, Some ErrRange)
          else (if neg then - un else un, None)
      end
  end.

Definition digitByte (d : Z) : ascii := ascii_of_nat (Z.to_nat d + 48).

(** The decimal loop of [formatBits]: the digits of [u], the last one
    first, written in front of [buf]. (The library writes two digits per
    round from a table; the text is the same.) A uint64 has at most 20
    digits. *)
Fixpoint formatDigits (fuel : nat) (u : Z) (buf : string) : string :=
  match fuel with
  | O => buf
  | S fuel' =>
      if u <? 10 then String (digitByte u) buf
      else formatDigits fuel' (u / 10) (String (digitByte (u mod 10)) buf)
  end.

(** [strconv.Itoa(i)], that is [FormatInt(int64(i), 10)]. *)
Definition Itoa (i : Z) : string :=
  let digits := formatDigits 20 (Z.abs i) EmptyString in
  if i <? 0 then String "-" digits else digits.

Section Quoting.

(** [strconv.Quote], which only the text of a [NumError] needs, is taken
    as given. *)
Variable Quote : string -> string.

(** The [Error()] text of a [NumError] whose [Func] is Atoi. *)
Definition numErrorText (num : string) (e : numErr) : string :=
  "strconv.Atoi: parsing " ++ Quote num ++ ": " ++ numErrText e.

(** [strconv.Atoi]: its fast path for short inputs computes what
    [ParseInt(s, 10, 0)] does, so the model is the latter, with the
    error's function name set to Atoi. The value comes back with the
    error: 0 at a syntax error, the nearest bound at a range error. *)
Definition Atoi (s : string) : Z * error :=
  match ParseInt s with
  | (i, None) => (i, noError)
  | (i, Some e) => (i, anError (numErrorText s e))
  end.

End Quoting.

End strconv.

Module time.

(** A [Duration] is a count of nanoseconds in an int64. *)
Definition Duration : Type := Z.
Definition Nanosecond : Duration := 1.
Definition Microsecond : Duration := 1000 * Nanosecond.
Definition Millisecond : Duration := 1000 * Microsecond.
Definition Second : Duration := 1000 * Millisecond.

Definition digitChar (d : Z) : ascii := ascii_of_nat (Z.to_nat d + 48).

(** [fmtFrac]: writes the fraction [v / 10^prec] in front of [buf],
    leaving out trailing zeros and, with them all zero, the point. *)
Fixpoint fmtFracLoop (prec : nat) (buf : string) (v : Z) (print : bool)
  : string * Z * bool :=
  match prec with
  | O => (buf, v, print)
  | S prec' =>
      let digit := v mod 10 in
      let print := print || negb (digit =? 0) in
      let buf := if print then String (digitChar digit) buf else buf in
      fmtFracLoop prec' buf (v / 10) print
  end.

Definition fmtFrac (buf : string) (v : Z) (prec : nat) : string * Z :=
  match fmtFracLoop prec buf v false with
  | (buf, v, print) => (if print then String "." buf else buf, v)
  end.

(** [fmtInt]: writes [v] in decimal in front of [buf]; a uint64 has at
    most 20 digits. *)
Fixpoint fmtIntLoop (fuel : nat) (buf : string) (v : Z) : string :=
  match fuel with
  | O => buf
  | S fuel' =>
      if 0 <? v then fmtIntLoop fuel' (String (digitChar (v mod 10)) buf) (v / 10)
      else buf
  end.

Definition fmtInt (buf : string) (v : Z) : string :=
  if v =? 0 then String "0" buf else fmtIntLoop 20 buf v.

(** The two bytes of the micro sign in UTF-8. *)
Definition micro : string :=
  String (ascii_of_nat 194) (String (ascii_of_nat 181) EmptyString).

(** [Duration.String]: "72h3m0.5s"; below a second the unit is ns, us
    (with the micro sign) or ms; zero is "0s". *)
Definition String_ (d : Duration) : string :=
  let u := Z.abs d in
  let body :=
    if u <? Second then
      if u =? 0 then "0s"
      else if u <? Microsecond then
        let '(buf, u) := fmtFrac "ns" u 0 in fmtInt buf u
      else if u <? Millisecond then
        let '(buf, u) := fmtFrac (micro ++ "s") u 3 in fmtInt buf u
      else
        let '(buf, u) := fmtFrac "ms" u 6 in fmtInt buf u
    else
      let '(buf, u) := fmtFrac "s" u 9 in
      let buf := fmtInt buf (u mod 60) in
      let u := u / 60 in
      if 0 <? u then
        let buf := fmtInt (String "m" buf) (u mod 60) in
        let u := u / 60 in
        if 0 <? u then fmtInt (String "h" buf) u else buf
      else buf in
  if d <? 0 then String "-" body else body.

End time.

(** ** Methods with a receiver: state, and the panic of a nil call *)

Inductive outcome (A : Type) : Type :=
| Returns (a : A)
| Panics.
Arguments Returns {A} a.
Arguments Panics {A}.

Definition M (S A : Type) : Type := S -> outcome (A * S).

Definition ret {S A} (a : A) : M S A := fun s => Returns (a, s).

Definition bind {S A B} (m : M S A) (k : A -> M S B) : M S B :=
  fun s => match m s with
           | Returns (a, s') => k a s'
           | Panics => Panics
           end.

Declare Scope go_scope.
Delimit Scope go_scope with go.
Notation "x <- m ;; k" := (bind m (fun x => k))
  (at level 61, m at next level, right associativity) : go_scope.
Notation "m ;; k" := (bind m (fun _ => k))
  (at level 61, right associativity) : go_scope.

(** ** The registry client library (github.com/hashicorp/consul/api)

    The library is an opaque dependency: the records the package fills
    in, and the four calls of the agent handle as an interface. *)

Module api.

Record AgentServiceCheck : Type := {
  HTTP : string;
  Interval : string;
  TTL : string
}.

Record AgentServiceRegistration : Type := {
  Name : string;
  ID : string;
  Port : Z;
  Tags : list string;
  Check : AgentServiceCheck
}.

(** [client.Agent()] with the calls made on it; [A] is the state behind
    the client (the registry it talks to). *)
Class Agent (A : Type) : Type := {
  ServiceRegister : AgentServiceRegistration -> A -> error * A;
  ServiceDeregister : string -> A -> error * A;
  PassTTL : string -> string -> A -> error * A;
  FailTTL : string -> string -> A -> error * A
}.

End api.

(** ** consul.go *)

Record CheckOptions : Type := {
  HTTP : string;
  Interval : string;
  TTL : string
}.

Record Service : Type := {
  Name : string;
  ID : string;
  Port : Z;
  Tags : list string;
  Check : CheckOptions
}.

(** [Broker] - represents consul broker interface. *)
Module Broker.

Class t (B : Type) : Type := {
  Register : Service -> B -> error * B;
  Deregister : string -> B -> error * B;
  SendHealthCheck : string -> string -> B -> error * B
}.

End Broker.

(** The struct [broker] and its methods; the embedded mutex, which no
    method locks, is left out. *)
Module broker.

Record t (A : Type) : Type := mk {
  client : A;
  services : list api.AgentServiceRegistration
}.
Arguments mk {A} client services.
Arguments client {A} _.
Arguments services {A} _.

Section Methods.

Context {A : Type} `{api.Agent A}.

(** A call on [b.client.Agent()]: the client's state moves on, the rest
    of the struct stays. *)
Definition onAgent (f : A -> error * A) (b : t A) : error * t A :=
  let (err, c) := f (client b) in (err, mk c (services b)).

(** [Register] - registers service to consul. *)
Definition Register (serviceData : Service) (b : t A) : error * t A :=
  let serviceRegData :=
    {| api.Name := Name serviceData;
       api.ID := ID serviceData;
       api.Port := Port serviceData;
       api.Tags := Tags serviceData;
       api.Check :=
         {| api.HTTP := HTTP (Check serviceData);
            api.Interval := Interval (Check serviceData);
            api.TTL := TTL (Check serviceData) |} |} in
  onAgent (api.ServiceRegister serviceRegData) b.

(** [Deregister] - deregisters a service. *)
Definition Deregister (serviceID : string) (b : t A) : error * t A :=
  onAgent (api.ServiceDeregister serviceID) b.

Definition SendHealthCheck (serviceID : string) (error_ : string) (b : t A)
  : error * t A :=
  if String.eqb error_ "" then
    match onAgent (api.PassTTL ("service:" ++ serviceID) "ok") b with
    | (anError agentErr, b') => (anError agentErr, b')
    | (noError, b') => (noError, b')
    end
  else
    match onAgent (api.FailTTL ("service:" ++ serviceID) error_) b with
    | (anError agentErr, b') => (anError agentErr, b')
    | (noError, b') => (noError, b')
    end.

End Methods.

End broker.

#[export] Instance broker_Broker {A : Type} `{api.Agent A} : Broker.t (broker.t A) := {
  Broker.Register := broker.Register;
  Broker.Deregister := broker.Deregister;
  Broker.SendHealthCheck := broker.SendHealthCheck
}.

(** [NewBroker]; [newClient] is what [api.NewClient(api.DefaultConfig())]
    gives: a client, or the text of its error. *)
Definition NewBroker {A : Type} (newClient : A + string)
  : option (broker.t A) * error :=
  match newClient with
  | inr err => (None, anError err)
  | inl consulClient => (Some (broker.mk consulClient []), noError)
  end.

(** ** The facade *)

(** What [StartMetrics] launches with its go statement: the task that runs
    [startMetricServer(serviceName, port)] and ends the process when the
    listener fails. Only the launch is part of the model. *)
Inductive goroutine : Type :=
| metricServer (serviceName : string) (port : Z).

Module wrapper.

Record t (B : Type) : Type := mk {
  isUseConsul : bool;
  serviceName : string;
  serviceID : string;
  servicePromID : string;
  servicePort : Z;
  monitorPort : Z;
  consulBroker : option B
}.
Arguments mk {B} _ _ _ _ _ _ _.
Arguments isUseConsul {B} _.
Arguments serviceName {B} _.
Arguments serviceID {B} _.
Arguments servicePromID {B} _.
Arguments servicePort {B} _.
Arguments monitorPort {B} _.
Arguments consulBroker {B} _.

(** What a method of the facade can touch: its receiver [w] (with the
    broker behind the interface value, [None] for a nil one) and the
    tasks launched so far. *)
Record state (B : Type) : Type := mkState {
  w : t B;
  launched : list goroutine
}.
Arguments mkState {B} w launched.
Arguments w {B} _.
Arguments launched {B} _.

Section Methods.

Context {B : Type} `{Broker.t B}.

Local Open Scope go_scope.

Definition self : M (state B) (t B) := fun st => Returns (w st, st).

Definition go (g : goroutine) : M (state B) unit :=
  fun st => Returns (tt, mkState (w st) (launched st ++ [g])).

(** [w.monitorPort = monitorPort; w.servicePromID = servicePromID]. *)
Definition setMetrics (port : Z) (promID : string) : M (state B) unit :=
  fun st =>
    let r := w st in
    Returns (tt, mkState (mk (isUseConsul r) (serviceName r) (serviceID r)
                             promID (servicePort r) port (consulBroker r))
                         (launched st)).

(** A call through the interface value [w.consulBroker]; a nil one
    panics. *)
Definition onBroker (f : B -> error * B) : M (state B) error :=
  fun st =>
    let r := w st in
    match consulBroker r with
    | None => Panics
    | Some b =>
        let (err, b') := f b in
        Returns (err, mkState (mk (isUseConsul r) (serviceName r) (serviceID r)
                                  (servicePromID r) (servicePort r)
                                  (monitorPort r) (Some b'))
                              (launched st))
    end.

Definition StartMetrics (monitorPort : Z) (servicePromID : string)
  : M (state B) error :=
  r <- self ;;
  if negb (isUseConsul r) then ret noError
  else
    go (metricServer (serviceName r) monitorPort) ;;
    setMetrics monitorPort servicePromID ;;
    let promService :=
      {| Name := serviceName r;
         ID := servicePromID;
         Port := monitorPort;
         Tags := ["prom"];
         Check := {| HTTP := ""; Interval := ""; TTL := "" |} |} in
    err <- onBroker (Broker.Register promService) ;;
    match err with
    | anError e =>
        ret (anError ("can not register service " ++ ID promService
                        ++ " in consul " ++ e))
    | noError => ret noError
    end.

Definition StopMetrics : M (state B) error :=
  r <- self ;;
  if negb (isUseConsul r) then ret noError
  else
    err <- onBroker (Broker.Deregister (servicePromID r)) ;;
    match err with
    | anError e =>
        ret (anError ("do not deregister consul service " ++ servicePromID r
                        ++ ", got error " ++ e))
    | noError => ret noError
    end.

Definition Register (tags : list string) (version : string)
  : M (state B) error :=
  r <- self ;;
  if negb (isUseConsul r) then ret noError
  else
    let tags := if negb (String.eqb version "") then (tags ++ [version])%list
                else tags in
    let appService :=
      {| Name := serviceName r;
         ID := serviceID r;
         Port := servicePort r;
         Tags := tags;
         Check := {| HTTP := ""; Interval := "";
                     TTL := time.String_ (5 * time.Second) |} |} in
    err <- onBroker (Broker.Register appService) ;;
    match err with
    | anError e =>
        ret (anError ("do not deregister consul service " ++ serviceID r
                        ++ ", got error " ++ e))
    | noError => ret noError
    end.

Definition Deregister : M (state B) error :=
  r <- self ;;
  if negb (isUseConsul r) then ret noError
  else
    err <- onBroker (Broker.Deregister (serviceID r)) ;;
    match err with
    | anError e =>
        ret (anError ("do not deregister consul service " ++ serviceID r
                        ++ ", got error " ++ e))
    | noError => ret noError
    end.

Definition SendHealthCheck (err : error) : M (state B) error :=
  r <- self ;;
  if negb (isUseConsul r) then ret noError
  else
    match err with
    | anError text =>
        err' <- onBroker (Broker.SendHealthCheck (serviceID r) text) ;;
        match err' with
        | anError _ => ret err'
        | noError => ret noError
        end
    | noError =>
        err' <- onBroker (Broker.SendHealthCheck (serviceID r) "") ;;
        match err' with
        | anError _ => ret err'
        | noError => ret noError
        end
    end.

End Methods.

End wrapper.

(** [isUseConsul()], over the slice [os.Environ()] returns: one
    "key=value" string per variable. *)
Fixpoint isUseConsul (environ : list string) : bool :=
  match environ with
  | [] => false
  | environment :: rest =>
      if strings.Contains environment "CONSUL_" then true
      else isUseConsul rest
  end.

(** What a function leaves on the standard logger, one string per
    [log.Println] (without the logger's time prefix). *)
Definition logged (A : Type) : Type := A * list string.

Section Construction.

Variable Quote : string -> string.

(** [getServicePort]: the results are named, so the bare [return] of the
    first branch yields their values at that point, [port = 0] and
    [err = nil]. *)
Definition getServicePort (hostPort : string) : logged (Z * error) :=
  let colon := strings.Split hostPort ":" in
  if (length colon <? 2)%nat then
    ((0, noError), ["fail parse service port. not found ':'"])
  else
    let (port, err) := strconv.Atoi Quote (nth 1 colon "") in
    match err with
    | anError e => ((port, err), ["fail parse service port " ++ e])
    | noError => ((port, err), [])
    end.

(** [NewWrapper]; [environ] is what [os.Environ()] returns at the call. *)
Definition NewWrapper {B : Type} (environ : list string) (listen : string)
  (consulBroker : option B) (serviceName serviceID : string)
  : logged (option (wrapper.t B) * error) :=
  let '((servicePort, err), logs) := getServicePort listen in
  match err with
  | anError e => ((None, anError ("can't parse service port " ++ e)), logs)
  | noError =>
      ((Some (wrapper.mk (isUseConsul environ) serviceName serviceID ""
                         servicePort 0 consulBroker),
        noError), logs)
  end.

End Construction.

(** [GetBroker]; [newBroker] is the result [NewBroker()] would give. *)
Definition GetBroker {B : Type} (environ : list string)
  (newBroker : option B * error) : option B * error :=
  if negb (isUseConsul environ) then (None, noError) else newBroker.

(** ** The metrics endpoint *)

(** What the package uses of net/http: the process-wide default mux, on
    which [Handle] and [HandleFunc] register a handler for a pattern and
    panic when the pattern already has one. *)
Module http.

Inductive Handler : Type :=
| promhttpHandler
| writes (body : string).

Definition ServeMux : Type := list (string * Handler).

Definition registered (pattern : string) (mux : ServeMux) : bool :=
  existsb (fun entry => String.eqb (fst entry) pattern) mux.

Definition Handle (pattern : string) (handler : Handler) : M ServeMux unit :=
  fun mux =>
    if registered pattern mux then Panics
    else Returns (tt, (mux ++ [(pattern, handler)])%list).

End http.

(** [startMetricServer]; [ListenAndServe addr mux] is the error with which
    the listener on [addr], serving the default mux, comes back. *)
Definition startMetricServer
  (ListenAndServe : string -> http.ServeMux -> error)
  (serviceName : string) (port : Z) : M http.ServeMux (logged error) :=
  (http.Handle "/metrics" http.promhttpHandler ;;
   http.Handle "/" (http.writes (serviceName ++ " metrics")) ;;
   let addr := "0.0.0.0:" ++ strconv.Itoa port in
   let logs := ["start prometheus monitoring at " ++ addr] in
   fun mux =>
     match ListenAndServe addr mux with
     | anError err =>
         Returns ((anError ("fail start http prometheus interface: " ++ err),
                   logs), mux)
     | noError => Returns ((noError, logs), mux)
     end)%go.

(** ** Backends that record the calls they receive *)

Inductive brokerCall : Type :=
| callRegister (serviceData : Service)
| callDeregister (serviceID : string)
| callSendHealthCheck (serviceID : string) (error_ : string).

(** A [Broker] that notes every call, in order, and hands it to the
    broker [inner] it stands in front of. *)
Module recorder.

Record t (B : Type) : Type := mk {
  calls : list brokerCall;
  inner : B
}.
Arguments mk {B} calls inner.
Arguments calls {B} _.
Arguments inner {B} _.

Definition note {B : Type} (c : brokerCall) (f : B -> error * B) (r : t B)
  : error * t B :=
  let (err, b) := f (inner r) in (err, mk (calls r ++ [c]) b).

End recorder.

#[export] Instance recorder_Broker {B : Type} `{Broker.t B}
  : Broker.t (recorder.t B) := {
  Broker.Register := fun s =>
    recorder.note (callRegister s) (Broker.Register s);
  Broker.Deregister := fun id =>
    recorder.note (callDeregister id) (Broker.Deregister id);
  Broker.SendHealthCheck := fun id e =>
    recorder.note (callSendHealthCheck id e) (Broker.SendHealthCheck id e)
}.

Inductive agentCall : Type :=
| callServiceRegister (r : api.AgentServiceRegistration)
| callServiceDeregister (serviceID : string)
| callPassTTL (checkID note : string)
| callFailTTL (checkID note : string).

(** The same for the agent of the client library. *)
Module agentRecorder.

Record t (A : Type) : Type := mk {
  calls : list agentCall;
  inner : A
}.
Arguments mk {A} calls inner.
Arguments calls {A} _.
Arguments inner {A} _.

Definition note {A : Type} (c : agentCall) (f : A -> error * A) (r : t A)
  : error * t A :=
  let (err, a) := f (inner r) in (err, mk (calls r ++ [c]) a).

End agentRecorder.

#[export] Instance agentRecorder_Agent {A : Type} `{api.Agent A}
  : api.Agent (agentRecorder.t A) := {
  api.ServiceRegister := fun r =>
    agentRecorder.note (callServiceRegister r) (api.ServiceRegister r);
  api.ServiceDeregister := fun id =>
    agentRecorder.note (callServiceDeregister id) (api.ServiceDeregister id);
  api.PassTTL := fun id n =>
    agentRecorder.note (callPassTTL id n) (api.PassTTL id n);
  api.FailTTL := fun id n =>
    agentRecorder.note (callFailTTL id n) (api.FailTTL id n)
}.

(** A registry that answers every call with the same error value [reply]
    ([noError]: every call succeeds). *)
Record fixedAgent : Type := { reply : error }.

#[export] Instance fixedAgent_Agent : api.Agent fixedAgent := {
  api.ServiceRegister := fun _ a => (reply a, a);
  api.ServiceDeregister := fun _ a => (reply a, a);
  api.PassTTL := fun _ _ a => (reply a, a);
  api.FailTTL := fun _ _ a => (reply a, a)
}.

(** ** Notions the properties are stated with *)

(** The [Error()] text a call passes on; [nil] has none. *)
Definition textOf (e : error) : string :=
  match e with noError => "" | anError t => t end.

(** The name of the variable in an entry "key=value" of [os.Environ()]:
    what stands before the first "=". *)
Definition envKey (entry : string) : string :=
  hd "" (strings.Split entry "=").

(** The calls a recording broker behind the facade has seen; a nil
    interface value has seen none. *)
Definition callsSeen {B : Type} (st : wrapper.state (recorder.t B))
  : list brokerCall :=
  match wrapper.consulBroker (wrapper.w st) with
  | Some r => recorder.calls r
  | None => []
  end.

(** Whether the broker of consul.go turns a health report with this
    failure message into a [FailTTL] call on the agent. *)
Definition reportsFailure (serviceID error_ : string) : bool :=
  let b := broker.mk (agentRecorder.mk [] {| reply := noError |}) [] in
  match agentRecorder.calls (broker.client (snd (broker.SendHealthCheck serviceID error_ b))) with
  | [callFailTTL _ _] => true
  | _ => false
  end.

(** [strconv.Quote] on text of printable ASCII without a quote or a
    backslash, where it only puts the text in double quotes; the closed
    examples below use it on such text. *)
Definition quotePlain (s : string) : string :=
  String (ascii_of_nat 34) (s ++ String (ascii_of_nat 34) EmptyString).

(** A facade as [NewWrapper] builds it, for the closed examples: the
    broker of consul.go in front of an agent that records its calls and
    answers each with [agentReply]. *)
Definition sampleBackend : Type :=
  recorder.t (broker.t (agentRecorder.t fixedAgent)).

Definition sampleBroker (agentReply : error) : sampleBackend :=
  recorder.mk []
    (broker.mk (agentRecorder.mk [] {| reply := agentReply |}) []).

Definition sampleState (enabled : bool) (agentReply : error)
  : wrapper.state sampleBackend :=
  wrapper.mkState
    (wrapper.mk enabled "web" "web-1" "" 8080 0
                (Some (sampleBroker agentReply)))
    [].

(** The calls of a caller on the facade, one after the other, each made
    whatever the one before returned. *)
Inductive operation : Type :=
| opStartMetrics (monitorPort : Z) (servicePromID : string)
| opStopMetrics
| opRegister (tags : list string) (version : string)
| opDeregister
| opSendHealthCheck (err : error).

Definition runOp {B : Type} `{Broker.t B} (op : operation)
  : M (wrapper.state B) error :=
  match op with
  | opStartMetrics p id => wrapper.StartMetrics p id
  | opStopMetrics => wrapper.StopMetrics
  | opRegister tags version => wrapper.Register tags version
  | opDeregister => wrapper.Deregister
  | opSendHealthCheck err => wrapper.SendHealthCheck err
  end.

Fixpoint runOps {B : Type} `{Broker.t B} (ops : list operation)
  : M (wrapper.state B) (list error) :=
  match ops with
  | [] => ret []
  | op :: rest =>
      (e <- runOp op ;; es <- runOps rest ;; ret (e :: es))%go
  end.

(** The texts [Atoi] can read when the value fits: a sign or none, then
    one decimal digit or more. *)
Fixpoint allDigits (s : string) : bool :=
  match s with
  | EmptyString => true
  | String c s' => strconv.isDigit c && allDigits s'
  end.

Definition isNumeral (s : string) : bool :=
  match s with
  | EmptyString => false
  | String c rest =>
      if Ascii.eqb c "+" || Ascii.eqb c "-"
      then negb (String.eqb rest "") && allDigits rest
      else allDigits s
  end.

(** A facade in front of the broker of consul.go alone, its agent
    recording the calls. *)
Definition agentCallsSeen {A : Type}
  (st : wrapper.state (broker.t (agentRecorder.t A))) : list agentCall :=
  match wrapper.consulBroker (wrapper.w st) with
  | Some b => agentRecorder.calls (broker.client b)
  | None => []
  end.

(** Two steady brokers: one accepts every call, one answers every call
    with the same error; both count the calls. *)
Record accepting : Type := { accepted : nat }.

#[export] Instance accepting_Broker : Broker.t accepting := {
  Broker.Register := fun _ b => (noError, {| accepted := S (accepted b) |});
  Broker.Deregister := fun _ b => (noError, {| accepted := S (accepted b) |});
  Broker.SendHealthCheck :=
    fun _ _ b => (noError, {| accepted := S (accepted b) |})
}.

Record rejecting : Type := { rejected : nat }.

#[export] Instance rejecting_Broker : Broker.t rejecting := {
  Broker.Register :=
    fun _ b => (anError "registry down", {| rejected := S (rejected b) |});
  Broker.Deregister :=
    fun _ b => (anError "registry down", {| rejected := S (rejected b) |});
  Broker.SendHealthCheck :=
    fun _ _ b => (anError "registry down", {| rejected := S (rejected b) |})
}.

Example Split_hostport :
  strings.Split "0.0.0.0:8080" ":" = ["0.0.0.0"; "8080"].
Proof. reflexivity. Qed.

Example Split_no_colon : strings.Split "noport" ":" = ["noport"].
Proof. reflexivity. Qed.

Example Split_three : strings.Split "a:80:90" ":" = ["a"; "80"; "90"].
Proof. reflexivity. Qed.

Example Contains_prefix : strings.Contains "CONSUL_HTTP_ADDR=x" "CONSUL_" = true.
Proof. reflexivity. Qed.

Example ParseInt_8080 : strconv.ParseInt "8080" = (8080, None).
Proof. reflexivity. Qed.

Example ParseInt_neg : strconv.ParseInt "-12" = (-12, None).
Proof. reflexivity. Qed.

Example ParseInt_abc : strconv.ParseInt "abc" = (0, Some strconv.ErrSyntax).
Proof. reflexivity. Qed.

Example ParseInt_sign_only : strconv.ParseInt "+" = (0, Some strconv.ErrSyntax).
Proof. reflexivity. Qed.

Example ParseInt_big :
  strconv.ParseInt "9223372036854775808" = (strconv.maxInt64, Some strconv.ErrRange).
Proof. reflexivity. Qed.

Example ParseInt_min :
  strconv.ParseInt "-9223372036854775808" = (strconv.minInt64, None).
Proof. reflexivity. Qed.

Example String_5s : time.String_ (5 * time.Second) = "5s".
Proof. reflexivity. Qed.

Example String_mixed :
  time.String_ (72 * 3600 * time.Second + 3 * 60 * time.Second + 500 * time.Millisecond)
  = "72h3m0.5s".
Proof. reflexivity. Qed.

Example String_ms : time.String_ (1500 * time.Microsecond) = "1.5ms".
Proof. reflexivity. Qed.

(** * Properties *)

(** ** Strings *)

Lemma HasPrefix_app (p r : string) : strings.HasPrefix (p ++ r) p = true.
Proof.
  induction p as [|c p IH]; simpl; [reflexivity|].
  now rewrite Ascii.eqb_refl, IH.
Qed.

Lemma HasPrefix_inv (p s : string) :
  strings.HasPrefix s p = true -> exists r, s = p ++ r.
Proof.
  revert s; induction p as [|c p IH]; intros s Hp; simpl in *.
  - now exists s.
  - destruct s as [|a s]; [discriminate|].
    apply andb_prop in Hp as [Hc Hs].
    apply Ascii.eqb_eq in Hc; subst a.
    destruct (IH _ Hs) as [r ->]. now exists r.
Qed.

Lemma Index_lower (s sub : string) : -1 <= strings.Index s sub.
Proof.
  induction s as [|a s IH]; simpl.
  - destruct (strings.HasPrefix "" sub); lia.
  - destruct (strings.HasPrefix (String a s) sub); [lia|].
    destruct (strings.Index s sub <? 0) eqn:E; [lia|].
    apply Z.ltb_ge in E; lia.
Qed.

(** Below a first byte that does not start a match, the search goes on
    in the rest. *)
Lemma Contains_step (a : ascii) (s sub : string) :
  strings.Contains (String a s) sub
  = strings.HasPrefix (String a s) sub || strings.Contains s sub.
Proof.
  unfold strings.Contains; simpl.
  destruct (strings.HasPrefix (String a s) sub); [reflexivity|]; simpl.
  pose proof (Index_lower s sub) as Hl.
  destruct (strings.Index s sub <? 0) eqn:E.
  - apply Z.ltb_lt in E.
    symmetry; apply Z.leb_gt; lia.
  - apply Z.ltb_ge in E.
    transitivity true; [apply Z.leb_le; lia | symmetry; apply Z.leb_le; lia].
Qed.

Lemma Contains_empty (sub : string) :
  strings.Contains "" sub = strings.HasPrefix "" sub.
Proof.
  unfold strings.Contains; simpl.
  now destruct (strings.HasPrefix "" sub).
Qed.

(** [strings.Contains] decides the substring relation. *)
Lemma Contains_spec (s sub : string) :
  strings.Contains s sub = true <-> exists l r, s = l ++ sub ++ r.
Proof.
  split.
  - induction s as [|a s IH]; intros Hc.
    + rewrite Contains_empty in Hc.
      apply HasPrefix_inv in Hc as [r ->]. now exists "", r.
    + rewrite Contains_step in Hc.
      apply orb_prop in Hc as [Hp|Hc].
      * apply HasPrefix_inv in Hp as [r ->]. now exists "", r.
      * destruct (IH Hc) as (l & r & ->). now exists (String a l), r.
  - intros (l & r & ->).
    induction l as [|a l IH]; simpl.
    + destruct (sub ++ r) as [|a t] eqn:E.
      * rewrite Contains_empty, <- E. apply HasPrefix_app.
      * rewrite Contains_step, <- E, HasPrefix_app. reflexivity.
    + rewrite Contains_step, IH. apply orb_true_r.
Qed.

Lemma Contains_byte_cons (a c : ascii) (s : string) :
  strings.Contains (String a s) (String c "")
  = Ascii.eqb a c || strings.Contains s (String c "").
Proof.
  rewrite Contains_step; simpl. now rewrite andb_true_r.
Qed.

Lemma Split_not_empty (s : string) (c : ascii) : strings.Split s c <> [].
Proof.
  destruct s as [|a s]; simpl; [discriminate|].
  destruct (Ascii.eqb a c); [discriminate|].
  destruct (strings.Split s c); discriminate.
Qed.

(** A string without the separator is its own single segment. *)
Lemma Split_without_sep (s : string) (c : ascii) :
  strings.Contains s (String c "") = false -> strings.Split s c = [s].
Proof.
  induction s as [|a s IH]; intros Hc; simpl; [reflexivity|].
  rewrite Contains_byte_cons in Hc.
  apply orb_false_elim in Hc as [Ha Hs].
  now rewrite Ha, (IH Hs).
Qed.

(** The first segment ends at the first separator. *)
Lemma Split_at_first_sep (h t : string) (c : ascii) :
  strings.Contains h (String c "") = false ->
  strings.Split (h ++ String c t) c = h :: strings.Split t c.
Proof.
  induction h as [|a h IH]; intros Hc; simpl.
  - now rewrite Ascii.eqb_refl.
  - rewrite Contains_byte_cons in Hc.
    apply orb_false_elim in Hc as [Ha Hs].
    now rewrite Ha, (IH Hs).
Qed.

(** More than one segment means a separator was there. *)
Lemma Split_two_segments (s : string) (c : ascii) :
  (2 <= length (strings.Split s c))%nat <->
  strings.Contains s (String c "") = true.
Proof.
  split.
  - intros Hl.
    destruct (strings.Contains s (String c "")) eqn:E; [reflexivity|].
    rewrite (Split_without_sep _ _ E) in Hl; simpl in Hl; lia.
  - induction s as [|a s IH]; intros Hc.
    + discriminate.
    + rewrite Contains_byte_cons in Hc. simpl.
      destruct (Ascii.eqb a c); simpl in *.
      * pose proof (Split_not_empty s c).
        destruct (strings.Split s c); [contradiction|simpl; lia].
      * specialize (IH Hc).
        destruct (strings.Split s c); simpl in *; lia.
Qed.

(** ** The facade in front of a recording broker *)

Ltac run_method :=
  unfold wrapper.StartMetrics, wrapper.StopMetrics, wrapper.Register,
    wrapper.Deregister, wrapper.SendHealthCheck, wrapper.onBroker,
    wrapper.setMetrics, wrapper.go, wrapper.self, bind, ret, callsSeen;
  simpl.

Ltac enabled_state st r Hen Hbr :=
  destruct st as [[en name id promID port mport br] tasks];
  simpl in Hen, Hbr; subst en br.

(** C1: with the enablement flag false, each of the five lifecycle
    operations, whatever its arguments, returns nil and leaves the whole
    state as it was: the receiver, the broker behind it (a nil one too,
    which is not touched and so does not panic) and the list of launched
    tasks. No call reaches the broker, as a broker that changes state at
    every call (such as [recorder.t]) would show. *)
Theorem disabled_operations_are_noops :
  forall (B : Type) (HB : Broker.t B) (st : wrapper.state B),
    wrapper.isUseConsul (wrapper.w st) = false ->
    (forall monitorPort servicePromID,
        wrapper.StartMetrics monitorPort servicePromID st
        = Returns (noError, st)) /\
    wrapper.StopMetrics st = Returns (noError, st) /\
    (forall tags version,
        wrapper.Register tags version st = Returns (noError, st)) /\
    wrapper.Deregister st = Returns (noError, st) /\
    (forall err, wrapper.SendHealthCheck err st = Returns (noError, st)).
Proof.
  intros B HB st Hoff.
  repeat split; intros; run_method; now rewrite Hoff.
Qed.

Lemma disabled_operations_are_noops_witness :
  let st := sampleState false noError in
  wrapper.isUseConsul (wrapper.w st) = false /\
  wrapper.StartMetrics 9100 "web-prom" st = Returns (noError, st) /\
  wrapper.SendHealthCheck (anError "down") st = Returns (noError, st).
Proof.
  intro st.
  pose proof (disabled_operations_are_noops _ _ st eq_refl)
    as (Hstart & _ & _ & _ & Hhealth).
  split; [reflexivity|].
  split; [apply Hstart | apply Hhealth].
Defined.

(** The same seen from a recording broker: the calls it has noted are
    the ones it had noted before. *)
Corollary disabled_operations_record_nothing
  (B : Type) (HB : Broker.t B) (st : wrapper.state (recorder.t B))
  (op : M (wrapper.state (recorder.t B)) error) :
  wrapper.isUseConsul (wrapper.w st) = false ->
  op = wrapper.StopMetrics \/ op = wrapper.Deregister
  \/ (exists p id, op = wrapper.StartMetrics p id)
  \/ (exists tags v, op = wrapper.Register tags v)
  \/ (exists e, op = wrapper.SendHealthCheck e) ->
  exists st', op st = Returns (noError, st') /\ callsSeen st' = callsSeen st.
Proof.
  intros Hoff Hop.
  exists st; split; [|reflexivity].
  destruct Hop as [->|[->|[(p & id & ->)|[(tags & v & ->)|(e & ->)]]]];
    run_method; now rewrite Hoff.
Qed.

(** With a nil broker an enabled facade panics; a disabled one never
    reaches the call. *)
Lemma enabled_nil_broker_panics (B : Type) (HB : Broker.t B) (st : wrapper.state B) :
  wrapper.isUseConsul (wrapper.w st) = true ->
  wrapper.consulBroker (wrapper.w st) = None ->
  wrapper.Deregister st = Panics.
Proof.
  intros Hen Hbr. run_method. rewrite Hen; simpl. now rewrite Hbr.
Qed.

(** C9: on an enabled facade, StartMetrics(monitorPort, metricsServiceID)
    followed by StopMetrics() adds to the calls of the broker exactly one
    Register, for the registration with the facade's service name, id
    metricsServiceID, port monitorPort and the tags ["prom"], and then
    exactly one Deregister of metricsServiceID, whatever the broker
    answers to either call. *)
Theorem StartMetrics_then_StopMetrics :
  forall (B : Type) (HB : Broker.t B) (st : wrapper.state (recorder.t B))
         (r : recorder.t B) (monitorPort : Z) (metricsServiceID : string),
    wrapper.isUseConsul (wrapper.w st) = true ->
    wrapper.consulBroker (wrapper.w st) = Some r ->
    exists e1 e2 st',
      (e1 <- wrapper.StartMetrics monitorPort metricsServiceID ;;
       e2 <- wrapper.StopMetrics ;;
       ret (e1, e2))%go st = Returns ((e1, e2), st') /\
      callsSeen st'
      = (recorder.calls r
           ++ [callRegister
                 {| Name := wrapper.serviceName (wrapper.w st);
                    ID := metricsServiceID;
                    Port := monitorPort;
                    Tags := ["prom"];
                    Check := {| HTTP := ""; Interval := ""; TTL := "" |} |};
               callDeregister metricsServiceID])%list.
Proof.
  intros B HB st r monitorPort metricsServiceID Hen Hbr.
  enabled_state st r Hen Hbr.
  run_method. unfold recorder.note; simpl.
  destruct (Broker.Register _ (recorder.inner r)) as [e1 b1]; simpl.
  destruct (Broker.Deregister metricsServiceID b1) as [e2 b2] eqn:E2.
  destruct e1 as [|t1]; simpl; rewrite E2; simpl;
    destruct e2 as [|t2]; simpl;
    do 3 eexists; (split; [reflexivity|]); simpl;
    now rewrite <- app_assoc.
Qed.

Lemma StartMetrics_then_StopMetrics_witness :
  let st := sampleState true noError in
  exists e1 e2 st',
    (e1 <- wrapper.StartMetrics 9100 "web-prom" ;;
     e2 <- wrapper.StopMetrics ;;
     ret (e1, e2))%go st = Returns ((e1, e2), st') /\
    callsSeen st'
    = ([] ++ [callRegister
                {| Name := "web"; ID := "web-prom"; Port := 9100;
                   Tags := ["prom"];
                   Check := {| HTTP := ""; Interval := ""; TTL := "" |} |};
              callDeregister "web-prom"])%list.
Proof.
  intro st.
  exact (StartMetrics_then_StopMetrics _ _ st (sampleBroker noError)
           9100 "web-prom" eq_refl eq_refl).
Defined.

(** What [Register] hands to the broker of an enabled facade. *)
Lemma Register_call (B : Type) (HB : Broker.t B)
  (st : wrapper.state (recorder.t B)) (r : recorder.t B)
  (tags : list string) (version : string) :
  wrapper.isUseConsul (wrapper.w st) = true ->
  wrapper.consulBroker (wrapper.w st) = Some r ->
  exists err st',
    wrapper.Register tags version st = Returns (err, st') /\
    callsSeen st'
    = (recorder.calls r
         ++ [callRegister
               {| Name := wrapper.serviceName (wrapper.w st);
                  ID := wrapper.serviceID (wrapper.w st);
                  Port := wrapper.servicePort (wrapper.w st);
                  Tags := if String.eqb version "" then tags
                          else (tags ++ [version])%list;
                  Check := {| HTTP := ""; Interval := ""; TTL := "5s" |} |}])%list.
Proof.
  intros Hen Hbr.
  enabled_state st r Hen Hbr.
  run_method. unfold recorder.note; simpl.
  destruct (String.eqb version ""); simpl;
    match goal with
    | |- context [Broker.Register ?s (recorder.inner r)] =>
        destruct (Broker.Register s (recorder.inner r)) as [[|t] b']
    end; simpl; do 2 eexists; split; reflexivity.
Qed.

(** C6: on an enabled facade, Register(tags, version) makes exactly one
    Register call on the broker, and the tags of the registration it
    carries are the caller's tags, in their order, followed by the
    version when the version is not the empty string, and the caller's
    tags as they are when it is. *)
Theorem Register_tags :
  forall (B : Type) (HB : Broker.t B) (st : wrapper.state (recorder.t B))
         (r : recorder.t B) (tags : list string) (version : string),
    wrapper.isUseConsul (wrapper.w st) = true ->
    wrapper.consulBroker (wrapper.w st) = Some r ->
    exists err st' registration,
      wrapper.Register tags version st = Returns (err, st') /\
      callsSeen st' = (recorder.calls r ++ [callRegister registration])%list /\
      Tags registration
      = if String.eqb version "" then tags else (tags ++ [version])%list.
Proof.
  intros B HB st r tags version Hen Hbr.
  destruct (Register_call B HB st r tags version Hen Hbr) as (err & st' & Hrun & Hcalls).
  exists err, st'; eexists; split; [exact Hrun|].
  split; [exact Hcalls | reflexivity].
Qed.

Lemma Register_tags_witness :
  let st := sampleState true noError in
  exists err st' registration,
    wrapper.Register ["a"; "b"] "v1" st = Returns (err, st') /\
    callsSeen st' = ([] ++ [callRegister registration])%list /\
    Tags registration = ["a"; "b"; "v1"].
Proof.
  intro st.
  exact (Register_tags _ _ st (sampleBroker noError) ["a"; "b"] "v1"
           eq_refl eq_refl).
Defined.

Example Register_without_version :
  exists err st',
    wrapper.Register ["a"] "" (sampleState true noError) = Returns (err, st') /\
    exists registration,
      callsSeen st' = [callRegister registration] /\
      Tags registration = ["a"].
Proof.
  do 2 eexists; split; [lazy; reflexivity|].
  eexists; split; reflexivity.
Qed.

(** C8: on an enabled facade, whatever the tags and the version, the one
    registration Register hands to the broker is for the primary service
    id and has the check options TTL = "5s", the text of
    [time.Duration(5 * time.Second)], with the HTTP and Interval options
    left empty. *)
Theorem Register_check_is_ttl_5s :
  forall (B : Type) (HB : Broker.t B) (st : wrapper.state (recorder.t B))
         (r : recorder.t B) (tags : list string) (version : string),
    wrapper.isUseConsul (wrapper.w st) = true ->
    wrapper.consulBroker (wrapper.w st) = Some r ->
    exists err st' registration,
      wrapper.Register tags version st = Returns (err, st') /\
      callsSeen st' = (recorder.calls r ++ [callRegister registration])%list /\
      ID registration = wrapper.serviceID (wrapper.w st) /\
      Check registration = {| HTTP := ""; Interval := ""; TTL := "5s" |}.
Proof.
  intros B HB st r tags version Hen Hbr.
  destruct (Register_call B HB st r tags version Hen Hbr) as (err & st' & Hrun & Hcalls).
  exists err, st'; eexists; split; [exact Hrun|].
  split; [exact Hcalls|]. repeat split.
Qed.

Lemma Register_check_is_ttl_5s_witness :
  let st := sampleState true (anError "boom") in
  exists err st' registration,
    wrapper.Register ["a"] "v2" st = Returns (err, st') /\
    callsSeen st' = ([] ++ [callRegister registration])%list /\
    ID registration = "web-1" /\
    Check registration = {| HTTP := ""; Interval := ""; TTL := "5s" |}.
Proof.
  intro st.
  exact (Register_check_is_ttl_5s _ _ st (sampleBroker (anError "boom"))
           ["a"] "v2" eq_refl eq_refl).
Defined.

(** The broker of consul.go passes the check options on to the agent as
    they are. *)
Lemma broker_Register_check (A : Type) (HA : api.Agent A)
  (b : broker.t (agentRecorder.t A)) (serviceData : Service) :
  exists err b',
    broker.Register serviceData b = (err, b') /\
    exists registration,
      agentRecorder.calls (broker.client b')
      = (agentRecorder.calls (broker.client b)
           ++ [callServiceRegister registration])%list /\
      api.Tags registration = Tags serviceData /\
      api.TTL (api.Check registration) = TTL (Check serviceData) /\
      api.HTTP (api.Check registration) = HTTP (Check serviceData).
Proof.
  unfold broker.Register, broker.onAgent; simpl. unfold agentRecorder.note.
  destruct (api.ServiceRegister _ (agentRecorder.inner (broker.client b)))
    as [err a'].
  do 2 eexists; split; [reflexivity|]; simpl.
  eexists; repeat split.
Qed.

(** ** Health reports *)

(** What [SendHealthCheck] hands to the broker of an enabled facade, and
    what it returns: the broker's own error value. *)
Lemma SendHealthCheck_call (B : Type) (HB : Broker.t B)
  (st : wrapper.state (recorder.t B)) (r : recorder.t B) (err : error) :
  wrapper.isUseConsul (wrapper.w st) = true ->
  wrapper.consulBroker (wrapper.w st) = Some r ->
  exists st',
    wrapper.SendHealthCheck err st
    = Returns (fst (Broker.SendHealthCheck (wrapper.serviceID (wrapper.w st))
                      (textOf err) (recorder.inner r)), st') /\
    callsSeen st'
    = (recorder.calls r
         ++ [callSendHealthCheck (wrapper.serviceID (wrapper.w st))
               (textOf err)])%list.
Proof.
  intros Hen Hbr.
  enabled_state st r Hen Hbr.
  run_method. unfold recorder.note; simpl.
  destruct err as [|text]; simpl;
    match goal with
    | |- context [Broker.SendHealthCheck ?i ?m (recorder.inner r)] =>
        destruct (Broker.SendHealthCheck i m (recorder.inner r)) as [[|t] b']
    end; simpl; eexists; split; reflexivity.
Qed.

(** The broker of consul.go reports a failure for every message but the
    empty one. *)
Lemma reportsFailure_iff_text (serviceID error_ : string) :
  reportsFailure serviceID error_ = negb (String.eqb error_ "").
Proof.
  unfold reportsFailure, broker.SendHealthCheck.
  destruct (String.eqb error_ ""); reflexivity.
Qed.

(** C7, as the code has it: on an enabled facade SendHealthCheck(nil)
    makes exactly one SendHealthCheck call on the broker, for the primary
    service id with the empty failure message, and SendHealthCheck(e) for
    a non-nil e makes exactly one, whose failure message is the text of
    e. There is no second call. The broker of consul.go reports the
    call as a failure exactly when that text is not empty: a non-nil
    error with an empty text is reported like nil, as passing. *)
Theorem SendHealthCheck_one_report :
  forall (B : Type) (HB : Broker.t B) (st : wrapper.state (recorder.t B))
         (r : recorder.t B) (err : error),
    wrapper.isUseConsul (wrapper.w st) = true ->
    wrapper.consulBroker (wrapper.w st) = Some r ->
    exists result st',
      wrapper.SendHealthCheck err st = Returns (result, st') /\
      callsSeen st'
      = (recorder.calls r
           ++ [callSendHealthCheck (wrapper.serviceID (wrapper.w st))
                 (match err with noError => "" | anError text => text end)])%list /\
      reportsFailure (wrapper.serviceID (wrapper.w st)) (textOf err)
      = negb (String.eqb (textOf err) "").
Proof.
  intros B HB st r err Hen Hbr.
  destruct (SendHealthCheck_call B HB st r err Hen Hbr) as (st' & Hrun & Hcalls).
  do 2 eexists; split; [exact Hrun|].
  split; [exact Hcalls | apply reportsFailure_iff_text].
Qed.

Lemma SendHealthCheck_one_report_witness :
  let st := sampleState true noError in
  exists result st',
    wrapper.SendHealthCheck (anError "disk full") st = Returns (result, st') /\
    callsSeen st' = ([] ++ [callSendHealthCheck "web-1" "disk full"])%list /\
    reportsFailure "web-1" "disk full" = negb (String.eqb "disk full" "").
Proof.
  intro st.
  exact (SendHealthCheck_one_report _ _ st (sampleBroker noError)
           (anError "disk full") eq_refl eq_refl).
Defined.

(** C7 as stated fails at a non-nil error whose text is empty (Go's
    errors.New of the empty string): the one call carries the empty
    message, the broker of consul.go answers it with PassTTL and the note
    "ok", and no FailTTL reaches the agent, so the report is a passing
    one, the same as for nil. *)
Lemma SendHealthCheck_empty_text_passes :
  let st := sampleState true noError in
  isNil (anError "") = false /\
  (exists st',
      wrapper.SendHealthCheck (anError "") st = Returns (noError, st') /\
      callsSeen st' = [callSendHealthCheck "web-1" ""] /\
      (exists b, wrapper.consulBroker (wrapper.w st') = Some b /\
                 agentRecorder.calls (broker.client (recorder.inner b))
                 = [callPassTTL "service:web-1" "ok"]) /\
      wrapper.SendHealthCheck noError st = Returns (noError, st')) /\
  ~ (exists result st' b checkID note,
        wrapper.SendHealthCheck (anError "") st = Returns (result, st') /\
        wrapper.consulBroker (wrapper.w st') = Some b /\
        In (callFailTTL checkID note)
           (agentRecorder.calls (broker.client (recorder.inner b)))).
Proof.
  intro st. split; [reflexivity|]. split.
  - eexists; split; [lazy; reflexivity|].
    split; [reflexivity|]. split; [|reflexivity].
    eexists; split; reflexivity.
  - intros (result & st' & b & checkID & note & Hrun & Hb & Hin).
    lazy in Hrun. injection Hrun as _ <-.
    simpl in Hb. injection Hb as <-.
    simpl in Hin. destruct Hin as [Hin|[]]. discriminate.
Qed.

(** C10: for every service id and failure message, [broker.SendHealthCheck]
    makes exactly one call on the agent, on the check id "service:"
    followed by the service id: PassTTL with the note "ok" when the
    failure message is empty, FailTTL with the failure message as the
    note otherwise. It returns the error of that call. *)
Theorem broker_SendHealthCheck_translation :
  forall (A : Type) (HA : api.Agent A) (b : broker.t (agentRecorder.t A))
         (serviceID error_ : string),
    let checkID := "service:" ++ serviceID in
    let a := agentRecorder.inner (broker.client b) in
    exists b',
      broker.SendHealthCheck serviceID error_ b
      = (fst (if String.eqb error_ "" then api.PassTTL checkID "ok" a
              else api.FailTTL checkID error_ a), b') /\
      agentRecorder.calls (broker.client b')
      = (agentRecorder.calls (broker.client b)
           ++ [if String.eqb error_ "" then callPassTTL checkID "ok"
               else callFailTTL checkID error_])%list /\
      broker.services b' = broker.services b.
Proof.
  intros A HA b serviceID error_ checkID a; subst checkID a.
  unfold broker.SendHealthCheck, broker.onAgent; simpl.
  unfold agentRecorder.note.
  destruct (String.eqb error_ "").
  - match goal with
    | |- context [api.PassTTL ?i ?n ?x] =>
        destruct (api.PassTTL i n x) as [[|t] a']
    end; eexists; repeat split.
  - match goal with
    | |- context [api.FailTTL ?i ?n ?x] =>
        destruct (api.FailTTL i n x) as [[|t] a']
    end; eexists; repeat split.
Qed.

Example broker_SendHealthCheck_passing :
  agentRecorder.calls
    (broker.client
       (snd (broker.SendHealthCheck "web-1" ""
               (broker.mk (agentRecorder.mk [] {| reply := noError |}) []))))
  = [callPassTTL "service:web-1" "ok"].
Proof. reflexivity. Qed.

Example broker_SendHealthCheck_failing :
  agentRecorder.calls
    (broker.client
       (snd (broker.SendHealthCheck "web-1" "disk full"
               (broker.mk (agentRecorder.mk [] {| reply := noError |}) []))))
  = [callFailTTL "service:web-1" "disk full"].
Proof. reflexivity. Qed.

(** ** Errors of the registry *)

Lemma append_assoc (a b c : string) : (a ++ b) ++ c = a ++ b ++ c.
Proof. induction a as [|x a IH]; simpl; [reflexivity | now rewrite IH]. Qed.

Lemma append_empty_r (a : string) : a ++ "" = a.
Proof. induction a as [|x a IH]; simpl; [reflexivity | now rewrite IH]. Qed.

(** A message put together as [before ++ id ++ between ++ cause] names
    both the id and the cause. *)
Lemma message_names_id_and_cause (before id between cause : string) :
  strings.Contains (before ++ id ++ between ++ cause) id = true /\
  strings.Contains (before ++ id ++ between ++ cause) cause = true.
Proof.
  split; apply Contains_spec.
  - now exists before, (between ++ cause).
  - exists (before ++ id ++ between), "".
    now rewrite append_empty_r, !append_assoc.
Qed.

(** The four operations that register or deregister wrap a failure of
    the broker in a message that names the service id and the cause. *)
(** X13: when the broker fails the registration of the metrics service,
    StartMetrics on an enabled facade returns an error whose text
    contains the metrics id and the text of the broker's error. *)
Lemma StartMetrics_error_wrapped (B : Type) (HB : Broker.t B)
  (st : wrapper.state B) (b b' : B) (port : Z) (promID cause : string) :
  wrapper.isUseConsul (wrapper.w st) = true ->
  wrapper.consulBroker (wrapper.w st) = Some b ->
  Broker.Register
    {| Name := wrapper.serviceName (wrapper.w st); ID := promID; Port := port;
       Tags := ["prom"];
       Check := {| HTTP := ""; Interval := ""; TTL := "" |} |} b
  = (anError cause, b') ->
  exists text st',
    wrapper.StartMetrics port promID st = Returns (anError text, st') /\
    strings.Contains text promID = true /\
    strings.Contains text cause = true.
Proof.
  intros Hen Hbr Hans.
  destruct st as [[en name id oldID sport mport br] tasks];
    simpl in Hen, Hbr, Hans; subst en br.
  run_method. rewrite Hans; simpl.
  do 2 eexists; split; [reflexivity|].
  exact (message_names_id_and_cause
           "can not register service " promID " in consul " cause).
Qed.

(** X14: when the broker fails to deregister the metrics service,
    StopMetrics on an enabled facade returns an error whose text contains
    the metrics id the facade holds and the text of the broker's error. *)
Lemma StopMetrics_error_wrapped (B : Type) (HB : Broker.t B)
  (st : wrapper.state B) (b b' : B) (cause : string) :
  wrapper.isUseConsul (wrapper.w st) = true ->
  wrapper.consulBroker (wrapper.w st) = Some b ->
  Broker.Deregister (wrapper.servicePromID (wrapper.w st)) b
  = (anError cause, b') ->
  exists text st',
    wrapper.StopMetrics st = Returns (anError text, st') /\
    strings.Contains text (wrapper.servicePromID (wrapper.w st)) = true /\
    strings.Contains text cause = true.
Proof.
  intros Hen Hbr Hans.
  destruct st as [[en name id promID sport mport br] tasks];
    simpl in Hen, Hbr, Hans; subst en br.
  run_method. rewrite Hans; simpl.
  do 2 eexists; split; [reflexivity|].
  exact (message_names_id_and_cause
           "do not deregister consul service " promID ", got error " cause).
Qed.

(** X15: when the broker fails the registration of the primary service,
    Register on an enabled facade returns an error whose text contains
    the primary service id and the text of the broker's error. *)
Lemma Register_error_wrapped (B : Type) (HB : Broker.t B)
  (st : wrapper.state B) (b b' : B) (tags : list string)
  (version cause : string) :
  wrapper.isUseConsul (wrapper.w st) = true ->
  wrapper.consulBroker (wrapper.w st) = Some b ->
  Broker.Register
    {| Name := wrapper.serviceName (wrapper.w st);
       ID := wrapper.serviceID (wrapper.w st);
       Port := wrapper.servicePort (wrapper.w st);
       Tags := if String.eqb version "" then tags else (tags ++ [version])%list;
       Check := {| HTTP := ""; Interval := ""; TTL := "5s" |} |} b
  = (anError cause, b') ->
  exists text st',
    wrapper.Register tags version st = Returns (anError text, st') /\
    strings.Contains text (wrapper.serviceID (wrapper.w st)) = true /\
    strings.Contains text cause = true.
Proof.
  intros Hen Hbr Hans.
  destruct st as [[en name id promID sport mport br] tasks];
    simpl in Hen, Hbr, Hans; subst en br.
  run_method.
  destruct (String.eqb version ""); simpl;
    change (time.String_ 5000000000) with "5s";
    rewrite Hans; simpl;
    (do 2 eexists; split; [reflexivity|]);
    exact (message_names_id_and_cause
             "do not deregister consul service " id ", got error " cause).
Qed.

(** X16: when the broker fails to deregister the primary service,
    Deregister on an enabled facade returns an error whose text contains
    the primary service id and the text of the broker's error. *)
Lemma Deregister_error_wrapped (B : Type) (HB : Broker.t B)
  (st : wrapper.state B) (b b' : B) (cause : string) :
  wrapper.isUseConsul (wrapper.w st) = true ->
  wrapper.consulBroker (wrapper.w st) = Some b ->
  Broker.Deregister (wrapper.serviceID (wrapper.w st)) b
  = (anError cause, b') ->
  exists text st',
    wrapper.Deregister st = Returns (anError text, st') /\
    strings.Contains text (wrapper.serviceID (wrapper.w st)) = true /\
    strings.Contains text cause = true.
Proof.
  intros Hen Hbr Hans.
  destruct st as [[en name id promID sport mport br] tasks];
    simpl in Hen, Hbr, Hans; subst en br.
  run_method. rewrite Hans; simpl.
  do 2 eexists; split; [reflexivity|].
  exact (message_names_id_and_cause
           "do not deregister consul service " id ", got error " cause).
Qed.

(** X17: [SendHealthCheck] does not wrap: when the broker fails the
    health report, for a nil as for a non-nil observed error, an enabled
    facade returns the error value of the broker as it got it. *)
Lemma SendHealthCheck_error_passed_on (B : Type) (HB : Broker.t B)
  (st : wrapper.state B) (b b' : B) (err : error) (cause : string) :
  wrapper.isUseConsul (wrapper.w st) = true ->
  wrapper.consulBroker (wrapper.w st) = Some b ->
  Broker.SendHealthCheck (wrapper.serviceID (wrapper.w st)) (textOf err) b
  = (anError cause, b') ->
  exists st', wrapper.SendHealthCheck err st = Returns (anError cause, st').
Proof.
  intros Hen Hbr Hans.
  destruct st as [[en name id promID sport mport br] tasks];
    simpl in Hen, Hbr, Hans; subst en br.
  run_method.
  destruct err as [|text]; simpl in Hans |- *; rewrite Hans; simpl;
    eexists; reflexivity.
Qed.

(** C2, at the input where the code leaves it: an enabled facade for the
    service id "web-1" whose broker fails with "connection refused".
    SendHealthCheck returns a non-nil error whose text is the broker's
    own, "connection refused", and does not contain the service id; with
    the same broker, Deregister returns the wrapped message. *)
Theorem SendHealthCheck_error_not_wrapped :
  let st := sampleState true (anError "connection refused") in
  wrapper.serviceID (wrapper.w st) = "web-1" /\
  (exists st',
      wrapper.SendHealthCheck noError st
      = Returns (anError "connection refused", st')) /\
  (exists st',
      wrapper.SendHealthCheck (anError "disk full") st
      = Returns (anError "connection refused", st')) /\
  strings.Contains "connection refused" "web-1" = false /\
  (exists st',
      wrapper.Deregister st
      = Returns (anError "do not deregister consul service web-1, got error connection refused", st')).
Proof.
  intro st. split; [reflexivity|].
  split; [eexists; lazy; reflexivity|].
  split; [eexists; lazy; reflexivity|].
  split; [reflexivity|].
  eexists; lazy; reflexivity.
Qed.

(** ** The port of the listen address *)

Section Ports.

Variable Quote : string -> string.

(** With a colon in the address, the result is what [Atoi] makes of the
    element of index 1. *)
Lemma getServicePort_with_colon (hostPort : string) :
  strings.Contains hostPort ":" = true ->
  fst (getServicePort Quote hostPort)
  = strconv.Atoi Quote (nth 1 (strings.Split hostPort ":") "").
Proof.
  intros Hc. apply Split_two_segments in Hc.
  unfold getServicePort.
  destruct (Nat.ltb_spec (length (strings.Split hostPort ":")) 2) as [Hlt|_];
    [lia|].
  destruct (strconv.Atoi Quote _) as [port [|e]]; reflexivity.
Qed.

(** A segment [Atoi] rejects stops the construction. *)
Lemma NewWrapper_fails_on_bad_port (B : Type) (environ : list string)
  (listen : string) (consulBroker : option B) (serviceName serviceID : string)
  (port : Z) (e : string) :
  strings.Contains listen ":" = true ->
  strconv.Atoi Quote (nth 1 (strings.Split listen ":") "") = (port, anError e) ->
  fst (getServicePort Quote listen) = (port, anError e) /\
  snd (getServicePort Quote listen) = ["fail parse service port " ++ e] /\
  fst (NewWrapper Quote environ listen consulBroker serviceName serviceID)
  = (None, anError ("can't parse service port " ++ e)).
Proof.
  intros Hc Hatoi. apply Split_two_segments in Hc.
  unfold NewWrapper, getServicePort.
  destruct (Nat.ltb_spec (length (strings.Split listen ":")) 2) as [Hlt|_];
    [lia|].
  rewrite Hatoi. repeat split.
Qed.

(** C3, where the code leaves it: for every listen address without a
    colon, [getServicePort] writes its failure to the log and returns
    port 0 with a nil error, so [NewWrapper] does not fail: it returns
    a facade whose service port is 0 and a nil error. *)
Theorem NewWrapper_accepts_address_without_colon :
  forall (B : Type) (environ : list string) (listen : string)
         (consulBroker : option B) (serviceName serviceID : string),
    strings.Contains listen ":" = false ->
    getServicePort Quote listen
    = ((0, noError), ["fail parse service port. not found ':'"]) /\
    NewWrapper Quote environ listen consulBroker serviceName serviceID
    = ((Some (wrapper.mk (isUseConsul environ) serviceName serviceID ""
                         0 0 consulBroker),
        noError),
       ["fail parse service port. not found ':'"]).
Proof.
  intros B environ listen consulBroker serviceName serviceID Hc.
  unfold NewWrapper, getServicePort.
  rewrite (Split_without_sep _ _ Hc). split; reflexivity.
Qed.

(** C4, as the code has it: in a listen address with a colon, the port
    comes from the text between the first colon and the next one (or the
    end of the address when there is no other), parsed by [Atoi] as a
    base-10 integer; what follows a second colon is not looked at. *)
Theorem getServicePort_reads_second_segment :
  forall (host port : string) (more : option string),
    strings.Contains host ":" = false ->
    strings.Contains port ":" = false ->
    fst (getServicePort Quote
           (host ++ ":" ++ port
              ++ match more with None => "" | Some rest => ":" ++ rest end))
    = strconv.Atoi Quote port.
Proof.
  intros host port more Hhost Hport.
  set (tail := match more with None => "" | Some rest => ":" ++ rest end).
  assert (Hsplit : exists segs,
             strings.Split (host ++ ":" ++ port ++ tail) ":"
             = host :: port :: segs).
  { change (host ++ ":" ++ port ++ tail)
      with (host ++ String ":" (port ++ tail)).
    rewrite (Split_at_first_sep _ _ _ Hhost).
    subst tail; destruct more as [rest|].
    - change (port ++ ":" ++ rest) with (port ++ String ":" rest).
      rewrite (Split_at_first_sep _ _ _ Hport). now eexists.
    - rewrite append_empty_r, (Split_without_sep _ _ Hport). now eexists. }
  destruct Hsplit as [segs Hsplit].
  unfold getServicePort. rewrite Hsplit; simpl.
  destruct (strconv.Atoi Quote port) as [p [|e]]; reflexivity.
Qed.

End Ports.

Lemma NewWrapper_accepts_address_without_colon_witness :
  strings.Contains "noport" ":" = false /\
  getServicePort quotePlain "noport"
  = ((0, noError), ["fail parse service port. not found ':'"]) /\
  NewWrapper quotePlain ["CONSUL_HTTP_ADDR=127.0.0.1:8500"] "noport"
    (Some (sampleBroker noError)) "web" "web-1"
  = ((Some (wrapper.mk (isUseConsul ["CONSUL_HTTP_ADDR=127.0.0.1:8500"])
                       "web" "web-1" "" 0 0 (Some (sampleBroker noError))),
      noError),
     ["fail parse service port. not found ':'"]).
Proof.
  split; [reflexivity|].
  exact (NewWrapper_accepts_address_without_colon quotePlain _
           ["CONSUL_HTTP_ADDR=127.0.0.1:8500"] "noport"
           (Some (sampleBroker noError)) "web" "web-1" eq_refl).
Defined.

Lemma getServicePort_reads_second_segment_witness :
  strings.Contains "host" ":" = false /\
  strings.Contains "80" ":" = false /\
  fst (getServicePort quotePlain ("host" ++ ":" ++ "80" ++ ":" ++ "90"))
  = strconv.Atoi quotePlain "80".
Proof.
  split; [reflexivity|]. split; [reflexivity|].
  exact (getServicePort_reads_second_segment quotePlain "host" "80"
           (Some "90") eq_refl eq_refl).
Defined.

(** C4 as stated fails at "host:80:90": the address has a colon, its last
    colon-delimited segment is "90", and the port returned is 80. *)
Lemma getServicePort_not_last_segment :
  strings.Contains "host:80:90" ":" = true /\
  last (strings.Split "host:80:90" ":") "" = "90" /\
  strconv.Atoi quotePlain "90" = (90, noError) /\
  fst (getServicePort quotePlain "host:80:90") = (80, noError) /\
  fst (getServicePort quotePlain "host:80:90")
  <> strconv.Atoi quotePlain (last (strings.Split "host:80:90" ":") "").
Proof.
  repeat split; discriminate.
Qed.

Example getServicePort_8080 :
  getServicePort quotePlain "0.0.0.0:8080" = ((8080, noError), []).
Proof. reflexivity. Qed.

Example getServicePort_abc :
  exists e, fst (getServicePort quotePlain "host:abc") = (0, anError e).
Proof. eexists; reflexivity. Qed.

Example NewWrapper_abc :
  exists e,
    fst (NewWrapper quotePlain [] "host:abc" (Some (sampleBroker noError))
           "web" "web-1")
    = (None, anError e).
Proof. eexists; reflexivity. Qed.

Example NewWrapper_8080 :
  fst (NewWrapper quotePlain ["PATH=/bin"] "0.0.0.0:8080"
         (@None sampleBackend) "web" "web-1")
  = (Some (wrapper.mk false "web" "web-1" "" 8080 0 None), noError).
Proof. reflexivity. Qed.

(** ** The enablement flag *)

(** [isUseConsul] looks for the marker in each entry as a whole. *)
Lemma isUseConsul_scans_entries (environ : list string) :
  isUseConsul environ = true <->
  exists entry, In entry environ /\ strings.Contains entry "CONSUL_" = true.
Proof.
  induction environ as [|e rest IH]; simpl.
  - split; [discriminate | intros (entry & [] & _)].
  - destruct (strings.Contains e "CONSUL_") eqn:E.
    + split; [intros _; exists e; auto | reflexivity].
    + rewrite IH. split.
      * intros (entry & Hin & Hc). exists entry; auto.
      * intros (entry & [<-|Hin] & Hc); [congruence | exists entry; auto].
Qed.

(** The name of a variable is where its entry starts. *)
Lemma envKey_is_prefix (entry : string) :
  exists rest, entry = envKey entry ++ rest.
Proof.
  unfold envKey.
  induction entry as [|a entry [rest IH]]; simpl.
  - now exists "".
  - destruct (Ascii.eqb a "="); simpl.
    + now exists (String a entry).
    + pose proof (Split_not_empty entry "=") as Hne.
      destruct (strings.Split entry "=") as [|seg segs]; [contradiction|].
      simpl in *. exists rest. now rewrite <- IH.
Qed.

(** C5, as the code has it: the flag is true if and only if some entry of
    the environment, the whole string "name=value", contains "CONSUL_".
    A variable whose name contains it sets the flag whatever its value,
    and so does a variable whose value contains it. *)
Theorem isUseConsul_iff_entry_has_marker :
  forall environ : list string,
    (isUseConsul environ = true <->
     exists entry before after,
       In entry environ /\ entry = before ++ "CONSUL_" ++ after) /\
    ((exists entry, In entry environ /\
                    strings.Contains (envKey entry) "CONSUL_" = true) ->
     isUseConsul environ = true) /\
    (forall name value,
        strings.Contains value "CONSUL_" = true ->
        In (name ++ "=" ++ value) environ ->
        isUseConsul environ = true).
Proof.
  intros environ. split; [|split].
  - rewrite isUseConsul_scans_entries. split.
    + intros (entry & Hin & Hc).
      apply Contains_spec in Hc as (l & r & ->).
      now exists (l ++ "CONSUL_" ++ r), l, r.
    + intros (entry & l & r & Hin & ->).
      exists (l ++ "CONSUL_" ++ r); split; [exact Hin|].
      apply Contains_spec. now exists l, r.
  - intros (entry & Hin & Hc).
    apply isUseConsul_scans_entries. exists entry; split; [exact Hin|].
    destruct (envKey_is_prefix entry) as [rest Hrest].
    apply Contains_spec in Hc as (l & r & Hkey).
    apply Contains_spec. exists l, (r ++ rest).
    rewrite Hrest at 1. rewrite Hkey.
    now rewrite !append_assoc.
  - intros name value Hc Hin.
    apply isUseConsul_scans_entries. eexists; split; [exact Hin|].
    apply Contains_spec in Hc as (l & r & ->).
    apply Contains_spec. exists (name ++ "=" ++ l), r.
    now rewrite !append_assoc.
Qed.

(** C5 as stated fails at the environment of the one variable GREETING
    with the value CONSUL_is_off: no variable name contains "CONSUL_",
    and the flag is true. *)
Lemma isUseConsul_true_by_value :
  let environ := ["GREETING=CONSUL_is_off"] in
  envKey "GREETING=CONSUL_is_off" = "GREETING" /\
  isUseConsul environ = true /\
  ~ (isUseConsul environ = true <->
     exists entry, In entry environ /\
                   strings.Contains (envKey entry) "CONSUL_" = true).
Proof.
  intro environ. split; [reflexivity|]. split; [reflexivity|].
  intros [Hname _].
  destruct (Hname eq_refl) as (entry & [<-|[]] & Hc).
  discriminate.
Qed.

Example isUseConsul_by_name :
  isUseConsul ["PATH=/bin"; "CONSUL_HTTP_ADDR=127.0.0.1:8500"] = true.
Proof. reflexivity. Qed.

Example isUseConsul_absent : isUseConsul ["PATH=/bin"; "HOME=/root"] = false.
Proof. reflexivity. Qed.

Example GetBroker_disabled :
  GetBroker ["PATH=/bin"] (Some (sampleBroker noError), noError)
  = (None, noError).
Proof. reflexivity. Qed.

(** ** Decimal text of a port *)

Lemma digit_cases (d : Z) :
  0 <= d < 10 ->
  d = 0 \/ d = 1 \/ d = 2 \/ d = 3 \/ d = 4 \/ d = 5 \/ d = 6 \/ d = 7
  \/ d = 8 \/ d = 9.
Proof. lia. Qed.

Ltac each_digit d H :=
  apply digit_cases in H;
  repeat (destruct H as [H|H]; [subst d; reflexivity|]);
  subst d; reflexivity.

Lemma digitByte_isDigit (d : Z) :
  0 <= d < 10 -> strconv.isDigit (strconv.digitByte d) = true.
Proof. intros H. each_digit d H. Qed.

Lemma digitByte_digitVal (d : Z) :
  0 <= d < 10 -> strconv.digitVal (strconv.digitByte d) = d.
Proof. intros H. each_digit d H. Qed.

Lemma digitByte_not_colon (d : Z) :
  0 <= d < 10 -> Ascii.eqb (strconv.digitByte d) ":" = false.
Proof. intros H. each_digit d H. Qed.

(** Reading one more digit behind an accumulator that leaves room. *)
Lemma parseDigits_digit (d hi : Z) (rest : string) :
  0 <= d < 10 -> 0 <= hi -> hi * 10 + d <= strconv.maxUint64 ->
  strconv.parseDigits (String (strconv.digitByte d) rest) hi
  = strconv.parseDigits rest (hi * 10 + d).
Proof.
  intros Hd Hhi Hfit. cbn [strconv.parseDigits].
  rewrite (digitByte_isDigit d Hd), (digitByte_digitVal d Hd); cbn [negb].
  assert (Hcut : (strconv.maxUint64 / 10 + 1 <=? hi) = false).
  { apply Z.leb_gt. unfold strconv.maxUint64 in *.
    change (18446744073709551615 / 10) with 1844674407370955161. lia. }
  rewrite Hcut.
  assert (Hmax : (strconv.maxUint64 <? hi * 10 + d) = false)
    by (apply Z.ltb_ge; lia).
  now rewrite Hmax.
Qed.

Lemma formatDigits_step (fuel : nat) (u : Z) (buf : string) :
  strconv.formatDigits (S fuel) u buf
  = if u <? 10 then String (strconv.digitByte u) buf
    else strconv.formatDigits fuel (u / 10)
           (String (strconv.digitByte (u mod 10)) buf).
Proof. reflexivity. Qed.

(** The digits [formatDigits] writes are read back as the number. *)
Lemma parseDigits_formatDigits (fuel : nat) :
  forall (u : Z) (buf : string),
    0 <= u <= strconv.maxUint64 -> u < 10 ^ Z.of_nat (S fuel) ->
    strconv.parseDigits (strconv.formatDigits (S fuel) u buf) 0
    = strconv.parseDigits buf u.
Proof.
  induction fuel as [|fuel IH]; intros u buf Hu Hlt;
    rewrite formatDigits_step;
    destruct (Z.ltb_spec u 10) as [Hsmall|Hge];
    try (rewrite parseDigits_digit by lia; now rewrite Z.add_0_l).
  - change (10 ^ Z.of_nat 1) with 10 in Hlt. lia.
  - pose proof (Z.div_mod u 10 ltac:(lia)) as Hdm.
    pose proof (Z.mod_pos_bound u 10 ltac:(lia)) as Hmod.
    assert (Hq : 0 <= u / 10) by (apply Z.div_pos; lia).
    rewrite IH.
    + rewrite parseDigits_digit by lia.
      replace (u / 10 * 10 + u mod 10) with u by lia. reflexivity.
    + lia.
    + apply Z.div_lt_upper_bound; [lia|].
      rewrite Nat2Z.inj_succ, Z.pow_succ_r in Hlt by lia. exact Hlt.
Qed.

Lemma formatDigits_starts_with_digit (fuel : nat) :
  forall (u : Z) (buf : string),
    0 <= u ->
    exists c rest,
      strconv.formatDigits (S fuel) u buf = String c rest /\
      strconv.isDigit c = true.
Proof.
  induction fuel as [|fuel IH]; intros u buf Hu; rewrite formatDigits_step;
    destruct (Z.ltb_spec u 10) as [Hs|Hge];
    try (do 2 eexists; split; [reflexivity|];
         apply digitByte_isDigit; lia).
  - cbn [strconv.formatDigits]. do 2 eexists; split; [reflexivity|].
    apply digitByte_isDigit. apply Z.mod_pos_bound; lia.
  - apply IH. apply Z.div_pos; lia.
Qed.

Lemma formatDigits_no_colon (fuel : nat) :
  forall (u : Z) (buf : string),
    0 <= u ->
    strings.Contains (strconv.formatDigits fuel u buf) ":"
    = strings.Contains buf ":".
Proof.
  induction fuel as [|fuel IH]; intros u buf Hu; [reflexivity|].
  rewrite formatDigits_step.
  destruct (Z.ltb_spec u 10) as [Hs|Hge].
  - rewrite Contains_byte_cons, digitByte_not_colon by lia. reflexivity.
  - rewrite IH by (apply Z.div_pos; lia).
    rewrite Contains_byte_cons, digitByte_not_colon; [reflexivity|].
    apply Z.mod_pos_bound; lia.
Qed.

Lemma Itoa_no_colon (i : Z) : strings.Contains (strconv.Itoa i) ":" = false.
Proof.
  unfold strconv.Itoa.
  destruct (i <? 0).
  - rewrite Contains_byte_cons, formatDigits_no_colon by lia. reflexivity.
  - rewrite formatDigits_no_colon by lia. reflexivity.
Qed.

(** [ParseInt] reads back what [Itoa] writes, over all of int64. *)
Lemma ParseInt_Itoa (i : Z) :
  strconv.minInt64 <= i <= strconv.maxInt64 ->
  strconv.ParseInt (strconv.Itoa i) = (i, None).
Proof.
  intros Hi. unfold strconv.minInt64, strconv.maxInt64 in Hi.
  assert (Hu : 0 <= Z.abs i <= strconv.maxUint64)
    by (unfold strconv.maxUint64; lia).
  assert (Hlt : Z.abs i < 10 ^ Z.of_nat 20)
    by (change (10 ^ Z.of_nat 20) with 100000000000000000000; lia).
  pose proof (parseDigits_formatDigits 19 (Z.abs i) "" Hu Hlt) as Hparse.
  destruct (formatDigits_starts_with_digit 19 (Z.abs i) "" (proj1 Hu))
    as (c & rest & Heq & Hc).
  assert (Hplus : Ascii.eqb c "+" = false)
    by (destruct (Ascii.eqb_spec c "+") as [->|]; [discriminate|reflexivity]).
  assert (Hminus : Ascii.eqb c "-" = false)
    by (destruct (Ascii.eqb_spec c "-") as [->|]; [discriminate|reflexivity]).
  unfold strconv.Itoa.
  destruct (Z.ltb_spec i 0) as [Hneg|Hpos].
  - unfold strconv.ParseInt.
    change (Ascii.eqb "-" "-") with true.
    change (Ascii.eqb "-" "+") with false. cbn [orb negb andb].
    unfold strconv.ParseUint. rewrite Heq, <- Heq, Hparse.
    cbn [strconv.parseDigits].
    destruct (Z.ltb_spec (strconv.maxInt64 + 1) (Z.abs i)) as [Hbig|_].
    + unfold strconv.maxInt64 in Hbig; lia.
    + f_equal; lia.
  - rewrite Heq. unfold strconv.ParseInt.
    rewrite Hplus, Hminus. cbn [orb negb andb].
    unfold strconv.ParseUint. rewrite <- Heq, Hparse.
    cbn [strconv.parseDigits].
    destruct (Z.leb_spec (strconv.maxInt64 + 1) (Z.abs i)) as [Hbig|_].
    + unfold strconv.maxInt64 in Hbig; lia.
    + f_equal; lia.
Qed.

Lemma parseDigits_range_value (s : string) :
  forall n v, strconv.parseDigits s n = (v, Some strconv.ErrRange) ->
              v = strconv.maxUint64.
Proof.
  induction s as [|c s IH]; intros n v; cbn [strconv.parseDigits].
  - discriminate.
  - destruct (negb (strconv.isDigit c)); [discriminate|].
    destruct (strconv.maxUint64 / 10 + 1 <=? n); [congruence|].
    destruct (strconv.maxUint64 <? n * 10 + strconv.digitVal c);
      [congruence | apply IH].
Qed.

Lemma parseDigits_not_all_digits (s : string) :
  allDigits s = false ->
  forall n, snd (strconv.parseDigits s n) <> None.
Proof.
  induction s as [|c s IH]; intros Hs n; cbn [strconv.parseDigits].
  - discriminate.
  - cbn [allDigits] in Hs.
    destruct (strconv.isDigit c); cbn [negb andb] in *; [|discriminate].
    destruct (strconv.maxUint64 / 10 + 1 <=? n); [cbn [snd]; discriminate|].
    destruct (strconv.maxUint64 <? n * 10 + strconv.digitVal c);
      [cbn [snd]; discriminate | now apply IH].
Qed.

(** What is not a numeral is an error for [ParseInt]. *)
Lemma ParseInt_not_numeral (s : string) :
  isNumeral s = false -> snd (strconv.ParseInt s) <> None.
Proof.
  destruct s as [|c rest]; [discriminate|].
  unfold isNumeral, strconv.ParseInt.
  set (body := if Ascii.eqb c "+" || Ascii.eqb c "-" then rest
               else String c rest).
  intros Hnum.
  assert (Hbody : snd (strconv.ParseUint body) <> None).
  { subst body. destruct (Ascii.eqb c "+" || Ascii.eqb c "-").
    - destruct rest as [|r rest]; [discriminate|].
      simpl in Hnum. now apply parseDigits_not_all_digits.
    - now apply parseDigits_not_all_digits. }
  destruct (strconv.ParseUint body) as [un [[|]|]] eqn:E;
    cbn [snd] in Hbody |- *; [discriminate | | congruence].
  assert (un = strconv.maxUint64) as ->.
  { unfold strconv.ParseUint in E.
    destruct body as [|x xs]; [discriminate|].
    eapply parseDigits_range_value; exact E. }
  destruct (Ascii.eqb c "-"); discriminate.
Qed.

Section PortText.

Variable Quote : string -> string.

Lemma Split_host_port (host port : string) (more : option string) :
  strings.Contains host ":" = false ->
  strings.Contains port ":" = false ->
  exists segs,
    strings.Split
      (host ++ ":" ++ port
         ++ match more with None => "" | Some rest => ":" ++ rest end) ":"
    = host :: port :: segs.
Proof.
  intros Hhost Hport.
  change (host ++ ":" ++ ?x) with (host ++ String ":" x).
  rewrite (Split_at_first_sep _ _ _ Hhost).
  destruct more as [rest|].
  - change (port ++ ":" ++ rest) with (port ++ String ":" rest).
    rewrite (Split_at_first_sep _ _ _ Hport). now eexists.
  - rewrite append_empty_r, (Split_without_sep _ _ Hport). now eexists.
Qed.

(** X1: the decimal text of any int64 behind "host:" is read back as that
    number, with a nil error and nothing logged, and [NewWrapper] takes it
    as the service port: negative numbers and numbers above 65535 are
    accepted like any other. *)
Theorem NewWrapper_reads_decimal_port :
  forall (B : Type) (environ : list string) (host : string) (port : Z)
         (consulBroker : option B) (serviceName serviceID : string),
    strings.Contains host ":" = false ->
    strconv.minInt64 <= port <= strconv.maxInt64 ->
    getServicePort Quote (host ++ ":" ++ strconv.Itoa port)
    = ((port, noError), []) /\
    NewWrapper Quote environ (host ++ ":" ++ strconv.Itoa port)
      consulBroker serviceName serviceID
    = ((Some (wrapper.mk (isUseConsul environ) serviceName serviceID ""
                         port 0 consulBroker),
        noError), []).
Proof.
  intros B environ host port consulBroker serviceName serviceID Hhost Hport.
  destruct (Split_host_port host (strconv.Itoa port) None Hhost
              (Itoa_no_colon port)) as [segs Hsplit].
  rewrite append_empty_r in Hsplit.
  unfold NewWrapper, getServicePort. rewrite Hsplit.
  cbn [length Nat.ltb Nat.leb nth]. unfold strconv.Atoi.
  rewrite (ParseInt_Itoa port Hport). split; reflexivity.
Qed.

(** X2: when the text between the first colon and the next is not a
    numeral (it is empty, or holds a byte that is neither a decimal digit
    nor a sign in front), [getServicePort] logs the error of [Atoi] and
    returns it, and [NewWrapper] returns no facade and an error whose
    text is "can't parse service port " followed by that of [Atoi]. *)
Theorem NewWrapper_rejects_non_numeral_port :
  forall (B : Type) (environ : list string) (host port : string)
         (more : option string) (consulBroker : option B)
         (serviceName serviceID : string),
    strings.Contains host ":" = false ->
    strings.Contains port ":" = false ->
    isNumeral port = false ->
    let listen :=
      host ++ ":" ++ port
        ++ match more with None => "" | Some rest => ":" ++ rest end in
    exists value cause,
      strconv.Atoi Quote port = (value, anError cause) /\
      getServicePort Quote listen
      = ((value, anError cause), ["fail parse service port " ++ cause]) /\
      NewWrapper Quote environ listen consulBroker serviceName serviceID
      = ((None, anError ("can't parse service port " ++ cause)),
         ["fail parse service port " ++ cause]).
Proof.
  intros B environ host port more consulBroker serviceName serviceID
         Hhost Hport Hnum listen.
  destruct (Split_host_port host port more Hhost Hport) as [segs Hsplit].
  pose proof (ParseInt_not_numeral port Hnum) as Herr.
  subst listen. unfold NewWrapper, getServicePort. rewrite Hsplit.
  cbn [length Nat.ltb Nat.leb nth]. unfold strconv.Atoi.
  destruct (strconv.ParseInt port) as [value [e|]]; [|now destruct Herr].
  do 2 eexists. repeat split.
Qed.

End PortText.

Lemma NewWrapper_reads_decimal_port_witness :
  strings.Contains "0.0.0.0" ":" = false /\
  strconv.minInt64 <= -80 <= strconv.maxInt64 /\
  getServicePort quotePlain ("0.0.0.0" ++ ":" ++ strconv.Itoa (-80))
  = ((-80, noError), []).
Proof.
  split; [reflexivity|].
  assert (Hrange : strconv.minInt64 <= -80 <= strconv.maxInt64)
    by (unfold strconv.minInt64, strconv.maxInt64; lia).
  split; [exact Hrange|].
  exact (proj1 (NewWrapper_reads_decimal_port quotePlain sampleBackend []
                  "0.0.0.0" (-80) None "web" "web-1" eq_refl Hrange)).
Defined.

Lemma NewWrapper_rejects_non_numeral_port_witness :
  strings.Contains "host" ":" = false /\
  strings.Contains "8o80" ":" = false /\
  isNumeral "8o80" = false /\
  exists value cause,
    strconv.Atoi quotePlain "8o80" = (value, anError cause) /\
    getServicePort quotePlain "host:8o80"
    = ((value, anError cause), ["fail parse service port " ++ cause]) /\
    NewWrapper quotePlain [] "host:8o80" (@None sampleBackend) "web" "web-1"
    = ((None, anError ("can't parse service port " ++ cause)),
       ["fail parse service port " ++ cause]).
Proof.
  split; [reflexivity|]. split; [reflexivity|]. split; [reflexivity|].
  exact (NewWrapper_rejects_non_numeral_port quotePlain sampleBackend []
           "host" "8o80" None None "web" "web-1" eq_refl eq_refl eq_refl).
Defined.

(** ** More on the operations of the facade *)

Ltac broker_answers :=
  repeat match goal with
         | |- context [Broker.Register ?s ?b] =>
             destruct (Broker.Register s b) as [[|?cause] ?b']; simpl
         | |- context [Broker.Deregister ?i ?b] =>
             destruct (Broker.Deregister i b) as [[|?cause] ?b']; simpl
         | |- context [Broker.SendHealthCheck ?i ?m ?b] =>
             destruct (Broker.SendHealthCheck i m b) as [[|?cause] ?b']; simpl
         end.

(** X3: an enabled facade whose broker is a nil interface value panics in
    each of the five operations, at its call through the interface. *)
Theorem enabled_facade_with_nil_broker_panics :
  forall (B : Type) (HB : Broker.t B) (st : wrapper.state B) (op : operation),
    wrapper.isUseConsul (wrapper.w st) = true ->
    wrapper.consulBroker (wrapper.w st) = None ->
    runOp op st = Panics.
Proof.
  intros B HB st op Hen Hbr.
  destruct st as [[en name id promID port mport br] tasks];
    simpl in Hen, Hbr; subst en br.
  destruct op as [p i| |tags v| |[|text]]; reflexivity.
Qed.

Lemma enabled_facade_with_nil_broker_panics_witness :
  let st : wrapper.state sampleBackend :=
    wrapper.mkState (wrapper.mk true "web" "web-1" "" 8080 0 None) [] in
  wrapper.isUseConsul (wrapper.w st) = true /\
  wrapper.consulBroker (wrapper.w st) = None /\
  runOp (opSendHealthCheck noError) st = Panics.
Proof.
  intro st. split; [reflexivity|]. split; [reflexivity|].
  exact (enabled_facade_with_nil_broker_panics _ _ st
           (opSendHealthCheck noError) eq_refl eq_refl).
Defined.

(** One operation on an enabled facade with a recording broker: it
    returns, the facade stays enabled with a broker, the identity of the
    service is the same, and the broker has seen one call more. *)
Lemma runOp_enabled (B : Type) (HB : Broker.t B)
  (st : wrapper.state (recorder.t B)) (r : recorder.t B) (op : operation) :
  wrapper.isUseConsul (wrapper.w st) = true ->
  wrapper.consulBroker (wrapper.w st) = Some r ->
  exists e st' r' c,
    runOp op st = Returns (e, st') /\
    wrapper.isUseConsul (wrapper.w st') = true /\
    wrapper.consulBroker (wrapper.w st') = Some r' /\
    recorder.calls r' = (recorder.calls r ++ [c])%list.
Proof.
  intros Hen Hbr.
  enabled_state st r Hen Hbr.
  destruct op as [p i| |tags v| |[|text]]; unfold runOp; run_method;
    unfold recorder.note; simpl; broker_answers;
    do 4 eexists; repeat split.
Qed.

(** X4: on an enabled facade with a broker, a sequence of operations,
    whatever they are and whatever the broker answers, never panics,
    gives one result per operation, and makes exactly one call on the
    broker per operation: a failed call is not made again and does not
    keep the later ones from being made. *)
Theorem one_broker_call_per_operation :
  forall (B : Type) (HB : Broker.t B) (ops : list operation)
         (st : wrapper.state (recorder.t B)) (r : recorder.t B),
    wrapper.isUseConsul (wrapper.w st) = true ->
    wrapper.consulBroker (wrapper.w st) = Some r ->
    exists results st' made,
      runOps ops st = Returns (results, st') /\
      length results = length ops /\
      callsSeen st' = (recorder.calls r ++ made)%list /\
      length made = length ops.
Proof.
  intros B HB ops; induction ops as [|op ops IH]; intros st r Hen Hbr.
  - exists [], st, []. unfold callsSeen; rewrite Hbr, app_nil_r.
    repeat split.
  - destruct (runOp_enabled B HB st r op Hen Hbr)
      as (e & st1 & r1 & c & Hrun & Hen1 & Hbr1 & Hcalls).
    destruct (IH st1 r1 Hen1 Hbr1)
      as (results & st' & made & Hruns & Hlen & Hseen & Hmade).
    exists (e :: results), st', (c :: made).
    cbn [runOps]. unfold bind at 1. rewrite Hrun.
    unfold bind at 1. rewrite Hruns. unfold ret.
    split; [reflexivity|]. split; [simpl; now rewrite Hlen|].
    split; [|simpl; now rewrite Hmade].
    rewrite Hseen, Hcalls, <- app_assoc. reflexivity.
Qed.

Lemma one_broker_call_per_operation_witness :
  let st := sampleState true (anError "boom") in
  let ops := [opRegister ["a"] "v1"; opSendHealthCheck noError; opDeregister] in
  exists results st' made,
    runOps ops st = Returns (results, st') /\
    length results = length ops /\
    callsSeen st' = ([] ++ made)%list /\
    length made = length ops.
Proof.
  intros st ops.
  exact (one_broker_call_per_operation _ _ ops st
           (sampleBroker (anError "boom")) eq_refl eq_refl).
Defined.

Lemma runOp_keeps_identity (B : Type) (HB : Broker.t B)
  (st st' : wrapper.state B) (op : operation) (e : error) :
  runOp op st = Returns (e, st') ->
  wrapper.isUseConsul (wrapper.w st') = wrapper.isUseConsul (wrapper.w st) /\
  wrapper.serviceName (wrapper.w st') = wrapper.serviceName (wrapper.w st) /\
  wrapper.serviceID (wrapper.w st') = wrapper.serviceID (wrapper.w st) /\
  wrapper.servicePort (wrapper.w st') = wrapper.servicePort (wrapper.w st).
Proof.
  destruct st as [[en name id promID port mport br] tasks].
  destruct op as [p i| |tags v| |[|text]]; unfold runOp; run_method;
    (destruct en; simpl;
     [destruct br as [b|]; simpl; [broker_answers|discriminate]|]);
    intros Hrun; injection Hrun as _ <-; repeat split.
Qed.

(** X5: no sequence of operations changes the identity the facade was
    built with: the enablement flag, the service name, the service id
    and the service port after it are those before it. *)
Theorem operations_keep_identity :
  forall (B : Type) (HB : Broker.t B) (ops : list operation)
         (st st' : wrapper.state B) (results : list error),
    runOps ops st = Returns (results, st') ->
    wrapper.isUseConsul (wrapper.w st') = wrapper.isUseConsul (wrapper.w st) /\
    wrapper.serviceName (wrapper.w st') = wrapper.serviceName (wrapper.w st) /\
    wrapper.serviceID (wrapper.w st') = wrapper.serviceID (wrapper.w st) /\
    wrapper.servicePort (wrapper.w st') = wrapper.servicePort (wrapper.w st).
Proof.
  intros B HB ops; induction ops as [|op ops IH]; intros st st' results Hrun.
  - injection Hrun as _ <-. repeat split.
  - cbn [runOps] in Hrun. unfold bind at 1 in Hrun.
    destruct (runOp op st) as [[e st1]|] eqn:Hop; [|discriminate].
    unfold bind at 1 in Hrun.
    destruct (runOps ops st1) as [[es st2]|] eqn:Hops; [|discriminate].
    injection Hrun as _ <-.
    destruct (runOp_keeps_identity B HB st st1 op e Hop) as (H1 & H2 & H3 & H4).
    destruct (IH st1 st2 es Hops) as (K1 & K2 & K3 & K4).
    repeat split; congruence.
Qed.

Lemma operations_keep_identity_witness :
  let st := sampleState true noError in
  let ops := [opStartMetrics 9100 "web-prom"; opRegister [] "v1"; opStopMetrics] in
  exists results st',
    runOps ops st = Returns (results, st') /\
    wrapper.isUseConsul (wrapper.w st') = wrapper.isUseConsul (wrapper.w st) /\
    wrapper.serviceName (wrapper.w st') = wrapper.serviceName (wrapper.w st) /\
    wrapper.serviceID (wrapper.w st') = wrapper.serviceID (wrapper.w st) /\
    wrapper.servicePort (wrapper.w st') = wrapper.servicePort (wrapper.w st).
Proof.
  intros st ops. do 2 eexists.
  match goal with
  | |- ?run /\ _ => assert (Hrun : run) by (lazy; reflexivity)
  end.
  split; [exact Hrun|].
  exact (operations_keep_identity _ _ ops st _ _ Hrun).
Defined.

(** X6: on an enabled facade, Deregister makes exactly one call on the
    broker, Deregister of the primary service id (not of the metrics
    id), and returns nil exactly when that call returned nil. *)
Theorem Deregister_call :
  forall (B : Type) (HB : Broker.t B) (st : wrapper.state (recorder.t B))
         (r : recorder.t B),
    wrapper.isUseConsul (wrapper.w st) = true ->
    wrapper.consulBroker (wrapper.w st) = Some r ->
    exists result st',
      wrapper.Deregister st = Returns (result, st') /\
      callsSeen st'
      = (recorder.calls r
           ++ [callDeregister (wrapper.serviceID (wrapper.w st))])%list /\
      isNil result
      = isNil (fst (Broker.Deregister (wrapper.serviceID (wrapper.w st))
                      (recorder.inner r))).
Proof.
  intros B HB st r Hen Hbr.
  enabled_state st r Hen Hbr.
  run_method. unfold recorder.note; simpl. broker_answers;
    do 2 eexists; repeat split.
Qed.

Lemma Deregister_call_witness :
  let st := sampleState true noError in
  exists result st',
    wrapper.Deregister st = Returns (result, st') /\
    callsSeen st' = ([] ++ [callDeregister "web-1"])%list /\
    isNil result
    = isNil (fst (Broker.Deregister "web-1"
                    (recorder.inner (sampleBroker noError)))).
Proof.
  intro st.
  exact (Deregister_call _ _ st (sampleBroker noError) eq_refl eq_refl).
Defined.

(** X7: on an enabled facade, StopMetrics makes exactly one call on the
    broker, Deregister of the metrics id the facade holds at that time,
    and returns nil exactly when that call returned nil. *)
Theorem StopMetrics_call :
  forall (B : Type) (HB : Broker.t B) (st : wrapper.state (recorder.t B))
         (r : recorder.t B),
    wrapper.isUseConsul (wrapper.w st) = true ->
    wrapper.consulBroker (wrapper.w st) = Some r ->
    exists result st',
      wrapper.StopMetrics st = Returns (result, st') /\
      callsSeen st'
      = (recorder.calls r
           ++ [callDeregister (wrapper.servicePromID (wrapper.w st))])%list /\
      isNil result
      = isNil (fst (Broker.Deregister (wrapper.servicePromID (wrapper.w st))
                      (recorder.inner r))).
Proof.
  intros B HB st r Hen Hbr.
  enabled_state st r Hen Hbr.
  run_method. unfold recorder.note; simpl. broker_answers;
    do 2 eexists; repeat split.
Qed.

Lemma StopMetrics_call_witness :
  let st :=
    wrapper.mkState
      (wrapper.mk true "web" "web-1" "web-prom" 8080 9100
                  (Some (sampleBroker noError))) [] in
  exists result st',
    wrapper.StopMetrics st = Returns (result, st') /\
    callsSeen st' = ([] ++ [callDeregister "web-prom"])%list /\
    isNil result
    = isNil (fst (Broker.Deregister "web-prom"
                    (recorder.inner (sampleBroker noError)))).
Proof.
  intro st.
  exact (StopMetrics_call _ _ st (sampleBroker noError) eq_refl eq_refl).
Defined.

(** X8: a facade as [NewWrapper] returns it has no metrics id yet, so on
    an enabled one StopMetrics before any StartMetrics asks the broker
    to deregister the service with the empty id. *)
Theorem StopMetrics_before_StartMetrics :
  forall (Quote : string -> string) (B : Type) (HB : Broker.t B)
         (environ : list string) (listen : string) (r : recorder.t B)
         (serviceName serviceID : string) (facade : wrapper.t (recorder.t B))
         (logs : list string),
    NewWrapper Quote environ listen (Some r) serviceName serviceID
    = ((Some facade, noError), logs) ->
    isUseConsul environ = true ->
    exists result st',
      wrapper.StopMetrics (wrapper.mkState facade [])
      = Returns (result, st') /\
      callsSeen st' = (recorder.calls r ++ [callDeregister ""])%list.
Proof.
  intros Quote B HB environ listen r serviceName serviceID facade logs
         Hnew Hen.
  unfold NewWrapper in Hnew.
  destruct (getServicePort Quote listen) as [[port [|e]] l];
    [|discriminate].
  injection Hnew as <- _. rewrite Hen.
  run_method. unfold recorder.note; simpl. broker_answers;
    do 2 eexists; repeat split.
Qed.

Lemma StopMetrics_before_StartMetrics_witness :
  let environ := ["CONSUL_HTTP_ADDR=127.0.0.1:8500"] in
  let facade :=
    wrapper.mk true "web" "web-1" "" 8080 0 (Some (sampleBroker noError)) in
  NewWrapper quotePlain environ "0.0.0.0:8080" (Some (sampleBroker noError))
    "web" "web-1"
  = ((Some facade, noError), []) /\
  isUseConsul environ = true /\
  exists result st',
    wrapper.StopMetrics (wrapper.mkState facade []) = Returns (result, st') /\
    callsSeen st' = ([] ++ [callDeregister ""])%list.
Proof.
  intros environ facade.
  split; [reflexivity|]. split; [reflexivity|].
  exact (StopMetrics_before_StartMetrics quotePlain _ _ environ
           "0.0.0.0:8080" (sampleBroker noError) "web" "web-1" facade []
           eq_refl eq_refl).
Defined.

(** X9: on an enabled facade, StartMetrics launches exactly one metrics
    server task, for the facade's service name and the given port, and
    stores the port and the metrics id in the facade, also when the
    registration then fails. *)
Theorem StartMetrics_launches_and_records :
  forall (B : Type) (HB : Broker.t B) (st : wrapper.state B) (b : B)
         (monitorPort : Z) (servicePromID : string),
    wrapper.isUseConsul (wrapper.w st) = true ->
    wrapper.consulBroker (wrapper.w st) = Some b ->
    exists result st',
      wrapper.StartMetrics monitorPort servicePromID st
      = Returns (result, st') /\
      wrapper.launched st'
      = (wrapper.launched st
           ++ [metricServer (wrapper.serviceName (wrapper.w st)) monitorPort])%list /\
      wrapper.monitorPort (wrapper.w st') = monitorPort /\
      wrapper.servicePromID (wrapper.w st') = servicePromID.
Proof.
  intros B HB st b monitorPort servicePromID Hen Hbr.
  destruct st as [[en name id promID port mport br] tasks];
    simpl in Hen, Hbr; subst en br.
  run_method. broker_answers; do 2 eexists; repeat split.
Qed.

Lemma StartMetrics_launches_and_records_witness :
  let st := sampleState true (anError "boom") in
  exists result st',
    wrapper.StartMetrics 9100 "web-prom" st = Returns (result, st') /\
    wrapper.launched st' = ([] ++ [metricServer "web" 9100])%list /\
    wrapper.monitorPort (wrapper.w st') = 9100 /\
    wrapper.servicePromID (wrapper.w st') = "web-prom".
Proof.
  intro st.
  exact (StartMetrics_launches_and_records _ _ st
           (sampleBroker (anError "boom")) 9100 "web-prom" eq_refl eq_refl).
Defined.



(** ** Results of the operations *)

(** The result of an operation on an enabled facade is nil exactly when
    the answer of the one broker call it made is. *)
Lemma runOp_result (B : Type) (HB : Broker.t B) (st : wrapper.state B)
  (b : B) (op : operation) :
  wrapper.isUseConsul (wrapper.w st) = true ->
  wrapper.consulBroker (wrapper.w st) = Some b ->
  exists e st' b' answer,
    runOp op st = Returns (e, st') /\
    wrapper.isUseConsul (wrapper.w st') = true /\
    wrapper.consulBroker (wrapper.w st') = Some b' /\
    isNil e = isNil answer /\
    ((exists s, answer = fst (Broker.Register s b)) \/
     (exists i, answer = fst (Broker.Deregister i b)) \/
     (exists i m, answer = fst (Broker.SendHealthCheck i m b))).
Proof.
  intros Hen Hbr.
  destruct st as [[en name id promID port mport br] tasks];
    simpl in Hen, Hbr; subst en br.
  destruct op as [p i| |tags v| |[|text]]; unfold runOp; run_method;
    match goal with
    | |- context [Broker.Register ?s b] =>
        destruct (Broker.Register s b) as [[|cause] b'] eqn:E; simpl;
        do 3 eexists; eexists (fst (Broker.Register s b));
        rewrite E; repeat split; left; eexists; rewrite E; reflexivity
    | |- context [Broker.Deregister ?i b] =>
        destruct (Broker.Deregister i b) as [[|cause] b'] eqn:E; simpl;
        do 3 eexists; eexists (fst (Broker.Deregister i b));
        rewrite E; repeat split; right; left; eexists; rewrite E; reflexivity
    | |- context [Broker.SendHealthCheck ?i ?m b] =>
        destruct (Broker.SendHealthCheck i m b) as [[|cause] b'] eqn:E; simpl;
        do 3 eexists; eexists (fst (Broker.SendHealthCheck i m b));
        rewrite E; repeat split; right; right; do 2 eexists; rewrite E;
        reflexivity
    end.
Qed.

(** X11: in front of a broker that never returns an error, no operation
    of an enabled facade returns one: every result of every sequence of
    operations is nil. *)
Theorem no_error_without_broker_error :
  forall (B : Type) (HB : Broker.t B),
    (forall s b, fst (Broker.Register s b) = noError) ->
    (forall i b, fst (Broker.Deregister i b) = noError) ->
    (forall i m b, fst (Broker.SendHealthCheck i m b) = noError) ->
    forall (ops : list operation) (st : wrapper.state B) (b : B),
      wrapper.isUseConsul (wrapper.w st) = true ->
      wrapper.consulBroker (wrapper.w st) = Some b ->
      exists results st',
        runOps ops st = Returns (results, st') /\
        Forall (fun e => e = noError) results.
Proof.
  intros B HB Hreg Hdereg Hhealth ops.
  induction ops as [|op ops IH]; intros st b Hen Hbr.
  - exists [], st. split; [reflexivity | constructor].
  - destruct (runOp_result B HB st b op Hen Hbr)
      as (e & st1 & b1 & answer & Hrun & Hen1 & Hbr1 & Hnil & Hans).
    destruct (IH st1 b1 Hen1 Hbr1) as (results & st' & Hruns & Hall).
    exists (e :: results), st'.
    cbn [runOps]. unfold bind at 1. rewrite Hrun.
    unfold bind at 1. rewrite Hruns. split; [reflexivity|].
    constructor; [|exact Hall].
    assert (answer = noError) as ->.
    { destruct Hans as [[s ->]|[[i ->]|(i & m & ->)]]; auto. }
    destruct e; [reflexivity | discriminate].
Qed.

Lemma no_error_without_broker_error_witness :
  let st : wrapper.state accepting :=
    wrapper.mkState
      (wrapper.mk true "web" "web-1" "" 8080 0 (Some {| accepted := 0 |})) [] in
  let ops := [opStartMetrics 9100 "web-prom"; opRegister ["a"] "v1";
              opSendHealthCheck (anError "disk full"); opDeregister;
              opStopMetrics] in
  exists results st',
    runOps ops st = Returns (results, st') /\
    Forall (fun e => e = noError) results.
Proof.
  intros st ops.
  exact (no_error_without_broker_error accepting _
           (fun _ _ => eq_refl) (fun _ _ => eq_refl) (fun _ _ _ => eq_refl)
           ops st {| accepted := 0 |} eq_refl eq_refl).
Defined.

(** X12: in front of a broker that answers every call with an error,
    every operation of an enabled facade returns a non-nil error: no
    failure of the broker is swallowed. *)
Theorem broker_error_always_surfaces :
  forall (B : Type) (HB : Broker.t B),
    (forall s b, isNil (fst (Broker.Register s b)) = false) ->
    (forall i b, isNil (fst (Broker.Deregister i b)) = false) ->
    (forall i m b, isNil (fst (Broker.SendHealthCheck i m b)) = false) ->
    forall (ops : list operation) (st : wrapper.state B) (b : B),
      wrapper.isUseConsul (wrapper.w st) = true ->
      wrapper.consulBroker (wrapper.w st) = Some b ->
      exists results st',
        runOps ops st = Returns (results, st') /\
        length results = length ops /\
        Forall (fun e => isNil e = false) results.
Proof.
  intros B HB Hreg Hdereg Hhealth ops.
  induction ops as [|op ops IH]; intros st b Hen Hbr.
  - exists [], st. split; [reflexivity|]. split; [reflexivity | constructor].
  - destruct (runOp_result B HB st b op Hen Hbr)
      as (e & st1 & b1 & answer & Hrun & Hen1 & Hbr1 & Hnil & Hans).
    destruct (IH st1 b1 Hen1 Hbr1) as (results & st' & Hruns & Hlen & Hall).
    exists (e :: results), st'.
    cbn [runOps]. unfold bind at 1. rewrite Hrun.
    unfold bind at 1. rewrite Hruns. split; [reflexivity|].
    split; [simpl; now rewrite Hlen|].
    constructor; [|exact Hall].
    rewrite Hnil.
    destruct Hans as [[s ->]|[[i ->]|(i & m & ->)]]; auto.
Qed.

Lemma broker_error_always_surfaces_witness :
  let st : wrapper.state rejecting :=
    wrapper.mkState
      (wrapper.mk true "web" "web-1" "" 8080 0 (Some {| rejected := 0 |})) [] in
  let ops := [opRegister ["a"] "v1"; opSendHealthCheck noError; opDeregister] in
  exists results st',
    runOps ops st = Returns (results, st') /\
    length results = length ops /\
    Forall (fun e => isNil e = false) results.
Proof.
  intros st ops.
  exact (broker_error_always_surfaces rejecting _
           (fun _ _ => eq_refl) (fun _ _ => eq_refl) (fun _ _ _ => eq_refl)
           ops st {| rejected := 0 |} eq_refl eq_refl).
Defined.

(** The wrapped messages at a broker that is down. *)

Lemma StartMetrics_error_wrapped_witness :
  let st := sampleState true (anError "boom") in
  exists text st',
    wrapper.StartMetrics 9100 "web-prom" st = Returns (anError text, st') /\
    strings.Contains text "web-prom" = true /\
    strings.Contains text "boom" = true.
Proof.
  intro st.
  exact (StartMetrics_error_wrapped _ _ st (sampleBroker (anError "boom")) _
           9100 "web-prom" "boom" eq_refl eq_refl eq_refl).
Defined.

Lemma StopMetrics_error_wrapped_witness :
  let st :=
    wrapper.mkState
      (wrapper.mk true "web" "web-1" "web-prom" 8080 9100
                  (Some (sampleBroker (anError "boom")))) [] in
  exists text st',
    wrapper.StopMetrics st = Returns (anError text, st') /\
    strings.Contains text "web-prom" = true /\
    strings.Contains text "boom" = true.
Proof.
  intro st.
  exact (StopMetrics_error_wrapped _ _ st (sampleBroker (anError "boom")) _
           "boom" eq_refl eq_refl eq_refl).
Defined.

Lemma Register_error_wrapped_witness :
  let st := sampleState true (anError "boom") in
  exists text st',
    wrapper.Register ["a"] "v1" st = Returns (anError text, st') /\
    strings.Contains text "web-1" = true /\
    strings.Contains text "boom" = true.
Proof.
  intro st.
  exact (Register_error_wrapped _ _ st (sampleBroker (anError "boom")) _
           ["a"] "v1" "boom" eq_refl eq_refl eq_refl).
Defined.

Lemma Deregister_error_wrapped_witness :
  let st := sampleState true (anError "boom") in
  exists text st',
    wrapper.Deregister st = Returns (anError text, st') /\
    strings.Contains text "web-1" = true /\
    strings.Contains text "boom" = true.
Proof.
  intro st.
  exact (Deregister_error_wrapped _ _ st (sampleBroker (anError "boom")) _
           "boom" eq_refl eq_refl eq_refl).
Defined.

Lemma SendHealthCheck_error_passed_on_witness :
  let st := sampleState true (anError "boom") in
  exists st',
    wrapper.SendHealthCheck (anError "disk full") st
    = Returns (anError "boom", st').
Proof.
  intro st.
  exact (SendHealthCheck_error_passed_on _ _ st
           (sampleBroker (anError "boom")) _ (anError "disk full") "boom"
           eq_refl eq_refl eq_refl).
Defined.

(** ** The broker of consul.go and the whole stack *)

(** X18: [broker.Register] makes exactly one call on the agent,
    ServiceRegister of a registration with the name, id, port, tags and
    the three check options of the service data, each as given, and
    [broker.Deregister] makes exactly one, ServiceDeregister of the id as
    given (without the "service:" the health report puts in front). Each
    returns the error of its call and leaves the list of services of the
    broker as it is. *)
Theorem broker_Register_Deregister_translation :
  forall (A : Type) (HA : api.Agent A) (b : broker.t (agentRecorder.t A))
         (serviceData : Service) (serviceID : string),
    let a := agentRecorder.inner (broker.client b) in
    let registration :=
      {| api.Name := Name serviceData;
         api.ID := ID serviceData;
         api.Port := Port serviceData;
         api.Tags := Tags serviceData;
         api.Check :=
           {| api.HTTP := HTTP (Check serviceData);
              api.Interval := Interval (Check serviceData);
              api.TTL := TTL (Check serviceData) |} |} in
    (exists b',
        broker.Register serviceData b
        = (fst (api.ServiceRegister registration a), b') /\
        agentRecorder.calls (broker.client b')
        = (agentRecorder.calls (broker.client b)
             ++ [callServiceRegister registration])%list /\
        broker.services b' = broker.services b) /\
    (exists b',
        broker.Deregister serviceID b
        = (fst (api.ServiceDeregister serviceID a), b') /\
        agentRecorder.calls (broker.client b')
        = (agentRecorder.calls (broker.client b)
             ++ [callServiceDeregister serviceID])%list /\
        broker.services b' = broker.services b).
Proof.
  intros A HA b serviceData serviceID a registration; subst a registration.
  unfold broker.Register, broker.Deregister, broker.onAgent; simpl.
  unfold agentRecorder.note.
  split.
  - match goal with
    | |- context [api.ServiceRegister ?r ?x] =>
        destruct (api.ServiceRegister r x) as [err a']
    end; eexists; repeat split.
  - match goal with
    | |- context [api.ServiceDeregister ?i ?x] =>
        destruct (api.ServiceDeregister i x) as [err a']
    end; eexists; repeat split.
Qed.

Ltac agent_answers :=
  repeat match goal with
         | |- context [api.ServiceRegister ?r ?a] =>
             destruct (api.ServiceRegister r a) as [[|?cause] ?a']; simpl
         | |- context [api.ServiceDeregister ?i ?a] =>
             destruct (api.ServiceDeregister i a) as [[|?cause] ?a']; simpl
         | |- context [api.PassTTL ?i ?n ?a] =>
             destruct (api.PassTTL i n a) as [[|?cause] ?a']; simpl
         | |- context [api.FailTTL ?i ?n ?a] =>
             destruct (api.FailTTL i n a) as [[|?cause] ?a']; simpl
         end.

(** X19: the whole lifecycle on an enabled facade in front of the broker
    of consul.go: StartMetrics, Register, SendHealthCheck, Deregister,
    StopMetrics reach the agent as exactly five calls, in this order:
    ServiceRegister of the metrics service (tag "prom", empty check
    options), ServiceRegister of the primary service (the caller's tags
    and version, TTL "5s"), PassTTL or FailTTL on "service:" and the
    primary id, ServiceDeregister of the primary id, ServiceDeregister of
    the metrics id, whatever the agent answers to each. *)
Theorem lifecycle_on_the_agent :
  forall (A : Type) (HA : api.Agent A)
         (st : wrapper.state (broker.t (agentRecorder.t A)))
         (b : broker.t (agentRecorder.t A))
         (monitorPort : Z) (metricsID : string) (tags : list string)
         (version : string) (observed : error),
    wrapper.isUseConsul (wrapper.w st) = true ->
    wrapper.consulBroker (wrapper.w st) = Some b ->
    let name := wrapper.serviceName (wrapper.w st) in
    let id := wrapper.serviceID (wrapper.w st) in
    exists results st',
      runOps [opStartMetrics monitorPort metricsID; opRegister tags version;
              opSendHealthCheck observed; opDeregister; opStopMetrics] st
      = Returns (results, st') /\
      agentCallsSeen st'
      = (agentRecorder.calls (broker.client b)
           ++ [callServiceRegister
                 {| api.Name := name; api.ID := metricsID;
                    api.Port := monitorPort; api.Tags := ["prom"];
                    api.Check := {| api.HTTP := ""; api.Interval := "";
                                    api.TTL := "" |} |};
               callServiceRegister
                 {| api.Name := name; api.ID := id;
                    api.Port := wrapper.servicePort (wrapper.w st);
                    api.Tags := if String.eqb version "" then tags
                                else (tags ++ [version])%list;
                    api.Check := {| api.HTTP := ""; api.Interval := "";
                                    api.TTL := "5s" |} |};
               if String.eqb (textOf observed) ""
               then callPassTTL ("service:" ++ id) "ok"
               else callFailTTL ("service:" ++ id) (textOf observed);
               callServiceDeregister id;
               callServiceDeregister metricsID])%list.
Proof.
  intros A HA st b monitorPort metricsID tags version observed Hen Hbr
         name id; subst name id.
  destruct st as [[en name id promID port mport br] tasks];
    simpl in Hen, Hbr; subst en br.
  destruct b as [[calls a] services].
  cbn [runOps runOp]. run_method. unfold agentCallsSeen.
  destruct (String.eqb version ""); simpl;
    destruct observed as [|text]; simpl;
    try (destruct (String.eqb text "") eqn:Etext; simpl);
    repeat (progress (unfold broker.Register, broker.Deregister,
                        broker.SendHealthCheck, broker.onAgent,
                        agentRecorder.note; simpl;
                      try rewrite Etext; simpl; agent_answers));
    do 2 eexists; (split; [reflexivity|]); simpl;
    rewrite <- !app_assoc; reflexivity.
Qed.

Lemma lifecycle_on_the_agent_witness :
  let b : broker.t (agentRecorder.t fixedAgent) :=
    broker.mk (agentRecorder.mk [] {| reply := noError |}) [] in
  let st := wrapper.mkState
              (wrapper.mk true "web" "web-1" "" 8080 0 (Some b)) [] in
  exists results st',
    runOps [opStartMetrics 9100 "web-prom"; opRegister ["a"] "v1";
            opSendHealthCheck (anError "disk full"); opDeregister;
            opStopMetrics] st
    = Returns (results, st') /\
    agentCallsSeen st'
    = ([] ++ [callServiceRegister
                {| api.Name := "web"; api.ID := "web-prom";
                   api.Port := 9100; api.Tags := ["prom"];
                   api.Check := {| api.HTTP := ""; api.Interval := "";
                                   api.TTL := "" |} |};
              callServiceRegister
                {| api.Name := "web"; api.ID := "web-1";
                   api.Port := 8080; api.Tags := ["a"; "v1"];
                   api.Check := {| api.HTTP := ""; api.Interval := "";
                                   api.TTL := "5s" |} |};
              callFailTTL "service:web-1" "disk full";
              callServiceDeregister "web-1";
              callServiceDeregister "web-prom"])%list.
Proof.
  intros b st.
  exact (lifecycle_on_the_agent _ _ st b 9100 "web-prom" ["a"] "v1"
           (anError "disk full") eq_refl eq_refl).
Defined.

(** ** From the environment to the facade *)

Lemma runOps_disabled (B : Type) (HB : Broker.t B) (ops : list operation)
  (st : wrapper.state B) :
  wrapper.isUseConsul (wrapper.w st) = false ->
  runOps ops st = Returns (repeat noError (length ops), st).
Proof.
  intros Hoff. induction ops as [|op ops IH]; [reflexivity|].
  cbn [runOps]. unfold bind at 1.
  assert (Hop : runOp op st = Returns (noError, st)).
  { destruct op as [p i| |tags v| |e]; unfold runOp; run_method;
      now rewrite Hoff. }
  rewrite Hop. unfold bind at 1. now rewrite IH.
Qed.

Lemma runOps_enabled_returns (B : Type) (HB : Broker.t B)
  (ops : list operation) :
  forall (st : wrapper.state B) (b : B),
    wrapper.isUseConsul (wrapper.w st) = true ->
    wrapper.consulBroker (wrapper.w st) = Some b ->
    exists results st' b',
      runOps ops st = Returns (results, st') /\
      length results = length ops /\
      wrapper.consulBroker (wrapper.w st') = Some b'.
Proof.
  induction ops as [|op ops IH]; intros st b Hen Hbr.
  - now exists [], st, b.
  - destruct (runOp_result B HB st b op Hen Hbr)
      as (e & st1 & b1 & answer & Hrun & Hen1 & Hbr1 & _).
    destruct (IH st1 b1 Hen1 Hbr1) as (results & st' & b' & Hruns & Hlen & Hb').
    exists (e :: results), st', b'.
    cbn [runOps]. unfold bind at 1. rewrite Hrun.
    unfold bind at 1. rewrite Hruns.
    split; [reflexivity|]. split; [simpl; now rewrite Hlen | exact Hb'].
Qed.

(** X20: in an environment without the marker, [GetBroker] returns a nil
    broker and a nil error without creating a client, whatever
    [NewBroker] would have given, and on the facade [NewWrapper] builds
    with that nil broker every sequence of operations returns nil for
    each operation, changes nothing and does not panic. *)
Theorem disabled_environment_end_to_end :
  forall (Quote : string -> string) (B : Type) (HB : Broker.t B)
         (environ : list string) (listen : string)
         (newBroker : option B * error) (serviceName serviceID : string)
         (facade : wrapper.t B) (logs : list string) (ops : list operation),
    isUseConsul environ = false ->
    NewWrapper Quote environ listen (fst (GetBroker environ newBroker))
      serviceName serviceID
    = ((Some facade, noError), logs) ->
    GetBroker environ newBroker = (None, noError) /\
    wrapper.consulBroker facade = None /\
    runOps ops (wrapper.mkState facade [])
    = Returns (repeat noError (length ops), wrapper.mkState facade []).
Proof.
  intros Quote B HB environ listen newBroker serviceName serviceID facade
         logs ops Hoff Hnew.
  unfold GetBroker in *. rewrite Hoff in *. cbn [negb fst] in *.
  split; [reflexivity|].
  unfold NewWrapper in Hnew.
  destruct (getServicePort Quote listen) as [[port [|e]] l]; [|discriminate].
  injection Hnew as <- _. split; [reflexivity|].
  apply runOps_disabled. simpl. exact Hoff.
Qed.

Lemma disabled_environment_end_to_end_witness :
  let environ := ["PATH=/bin"; "HOME=/root"] in
  let newBroker := (Some (sampleBroker noError), noError) in
  let facade : wrapper.t sampleBackend :=
    wrapper.mk false "web" "web-1" "" 8080 0 None in
  let ops := [opStartMetrics 9100 "web-prom"; opRegister ["a"] "v1";
              opSendHealthCheck noError; opDeregister; opStopMetrics] in
  isUseConsul environ = false /\
  GetBroker environ newBroker = (None, noError) /\
  wrapper.consulBroker facade = None /\
  runOps ops (wrapper.mkState facade [])
  = Returns (repeat noError (length ops), wrapper.mkState facade []).
Proof.
  intros environ newBroker facade ops.
  split; [reflexivity|].
  exact (disabled_environment_end_to_end quotePlain _ _ environ
           "0.0.0.0:8080" newBroker "web" "web-1" facade [] ops
           eq_refl eq_refl).
Defined.

(** X21: in an environment with the marker, when the client cannot be
    created, [GetBroker] returns a nil broker together with the error of
    [NewBroker]. [NewWrapper] takes the nil broker without complaint and
    builds an enabled facade, on which each of the five operations
    panics. *)
Theorem failed_client_leaves_panicking_facade :
  forall (Quote : string -> string) (A : Type) (HA : api.Agent A)
         (environ : list string) (listen cause : string)
         (serviceName serviceID : string) (facade : wrapper.t (broker.t A))
         (logs : list string) (op : operation),
    isUseConsul environ = true ->
    NewWrapper Quote environ listen
      (fst (GetBroker environ (NewBroker (inr cause))))
      serviceName serviceID
    = ((Some facade, noError), logs) ->
    GetBroker environ (@NewBroker A (inr cause)) = (None, anError cause) /\
    wrapper.isUseConsul facade = true /\
    runOp op (wrapper.mkState facade []) = Panics.
Proof.
  intros Quote A HA environ listen cause serviceName serviceID facade logs
         op Hen Hnew.
  unfold GetBroker, NewBroker in *. rewrite Hen in *. cbn [negb fst] in *.
  split; [reflexivity|].
  unfold NewWrapper in Hnew.
  destruct (getServicePort Quote listen) as [[port [|e]] l]; [|discriminate].
  injection Hnew as <- _. rewrite Hen. split; [reflexivity|].
  destruct op as [p i| |tags v| |[|text]]; reflexivity.
Qed.

Lemma failed_client_leaves_panicking_facade_witness :
  let environ := ["CONSUL_HTTP_ADDR=127.0.0.1:8500"] in
  let facade : wrapper.t (broker.t fixedAgent) :=
    wrapper.mk true "web" "web-1" "" 8080 0 None in
  isUseConsul environ = true /\
  GetBroker environ (@NewBroker fixedAgent (inr "bad address"))
  = (None, anError "bad address") /\
  wrapper.isUseConsul facade = true /\
  runOp opDeregister (wrapper.mkState facade []) = Panics.
Proof.
  intros environ facade.
  split; [reflexivity|].
  exact (failed_client_leaves_panicking_facade quotePlain fixedAgent _
           environ "0.0.0.0:8080" "bad address" "web" "web-1" facade []
           opDeregister eq_refl eq_refl).
Defined.

(** X22: in an environment with the marker, when the client is created,
    [GetBroker] returns a broker that holds it, with an empty list of
    services, and a nil error; on the facade [NewWrapper] builds with it
    every sequence of operations returns, with one result per
    operation: nothing panics. *)
Theorem created_client_gives_working_facade :
  forall (Quote : string -> string) (A : Type) (HA : api.Agent A)
         (environ : list string) (listen : string) (consulClient : A)
         (serviceName serviceID : string) (facade : wrapper.t (broker.t A))
         (logs : list string) (ops : list operation),
    isUseConsul environ = true ->
    NewWrapper Quote environ listen
      (fst (GetBroker environ (NewBroker (inl consulClient))))
      serviceName serviceID
    = ((Some facade, noError), logs) ->
    GetBroker environ (NewBroker (inl consulClient))
    = (Some (broker.mk consulClient []), noError) /\
    exists results st',
      runOps ops (wrapper.mkState facade []) = Returns (results, st') /\
      length results = length ops.
Proof.
  intros Quote A HA environ listen consulClient serviceName serviceID facade
         logs ops Hen Hnew.
  unfold GetBroker, NewBroker in *. rewrite Hen in *. cbn [negb fst] in *.
  split; [reflexivity|].
  unfold NewWrapper in Hnew.
  destruct (getServicePort Quote listen) as [[port [|e]] l]; [|discriminate].
  injection Hnew as <- _.
  destruct (runOps_enabled_returns (broker.t A) _ ops
              (wrapper.mkState
                 (wrapper.mk (isUseConsul environ) serviceName serviceID ""
                             port 0 (Some (broker.mk consulClient []))) [])
              (broker.mk consulClient []) Hen eq_refl)
    as (results & st' & b' & Hrun & Hlen & _).
  now exists results, st'.
Qed.

Lemma created_client_gives_working_facade_witness :
  let environ := ["CONSUL_HTTP_ADDR=127.0.0.1:8500"] in
  let consulClient := {| reply := noError |} in
  let facade :=
    wrapper.mk true "web" "web-1" "" 8080 0
               (Some (broker.mk consulClient [])) in
  let ops := [opRegister ["a"] "v1"; opSendHealthCheck noError; opDeregister] in
  isUseConsul environ = true /\
  GetBroker environ (NewBroker (inl consulClient))
  = (Some (broker.mk consulClient []), noError) /\
  exists results st',
    runOps ops (wrapper.mkState facade []) = Returns (results, st') /\
    length results = length ops.
Proof.
  intros environ consulClient facade ops.
  split; [reflexivity|].
  exact (created_client_gives_working_facade quotePlain fixedAgent _
           environ "0.0.0.0:8080" consulClient "web" "web-1" facade [] ops
           eq_refl eq_refl).
Defined.

(** ** The metrics server *)

Lemma registered_after (pattern added : string) (h : http.Handler)
  (mux : http.ServeMux) :
  http.registered pattern (mux ++ [(added, h)])%list
  = http.registered pattern mux || String.eqb added pattern.
Proof.
  unfold http.registered. rewrite existsb_app; simpl.
  now rewrite orb_false_r.
Qed.



(** X24: when "/metrics" or "/" already has a handler on the default mux
    (the embedding program serves one of them, or the metrics server was
    started before), [startMetricServer] panics at the registration and
    never listens, whatever the service name and the port. *)
Theorem startMetricServer_panics_on_taken_pattern :
  forall (ListenAndServe : string -> http.ServeMux -> error)
         (serviceName : string) (port : Z) (mux : http.ServeMux),
    http.registered "/metrics" mux || http.registered "/" mux = true ->
    startMetricServer ListenAndServe serviceName port mux = Panics.
Proof.
  intros ListenAndServe serviceName port mux Htaken.
  unfold startMetricServer, bind, http.Handle.
  destruct (http.registered "/metrics" mux) eqn:Hmetrics; [reflexivity|].
  simpl in Htaken.
  rewrite registered_after, Htaken. reflexivity.
Qed.

Lemma startMetricServer_panics_on_taken_pattern_witness :
  let mux := [("/", http.writes "hello")] in
  http.registered "/metrics" mux || http.registered "/" mux = true /\
  startMetricServer (fun _ _ => noError) "web" 9100 mux = Panics.
Proof.
  intro mux. split; [reflexivity|].
  exact (startMetricServer_panics_on_taken_pattern (fun _ _ => noError)
           "web" 9100 mux eq_refl).
Defined.
